(** * DIM: service-worker registration, version polling and reload

    A shallow embedding of [src/app/register-service-worker.ts]:
    the version comparison [isNewVersion], the poll stream
    [serverVersionChanged$], the aggregate [dimNeedsUpdate$], the
    registration callbacks of [registerServiceWorker], the closure
    [updateServiceWorker] and the entry point [reloadDIM]. *)

From Stdlib Require Import ZArith List String Ascii Bool Arith Lia.
Import ListNotations.
Open Scope string_scope.
Open Scope list_scope.
Open Scope nat_scope.

(* ================================================================= *)
(** ** JavaScript values used by the module *)

(** The Numbers that [parseInt] can return.  A finite Number is held by
    the integer it denotes (every result of [parseInt] is integral);
    [-0] and [+0] are both [Finite 0], the relational operators do not
    tell them apart. *)
Inductive number : Type :=
| NaN
| Finite (z : Z)
| PosInfinity
| NegInfinity.

(** [a < b] on Numbers: false as soon as an operand is NaN. *)
Definition lt (a b : number) : bool :=
  match a, b with
  | NaN, _ | _, NaN => false
  | Finite x, Finite y => (x <? y)%Z
  | Finite _, PosInfinity => true
  | Finite _, NegInfinity => false
  | PosInfinity, _ => false
  | NegInfinity, NegInfinity => false
  | NegInfinity, _ => true
  end.

(** [a > b] is evaluated as [b < a]. *)
Definition gt (a b : number) : bool := lt b a.

Definition isNaN (a : number) : bool :=
  match a with NaN => true | _ => false end.

(** Rounding of a non-negative integer to the nearest IEEE-754 binary64
    value, ties to even: exact below [2^53]; above, the 53 leading bits
    are kept and the rest rounds; from [2^1024 - 2^970] on the result is
    Infinity. *)
Definition toNumber (m : Z) : number :=
  if (m <? 2 ^ 53)%Z then Finite m
  else
    let e := (Z.log2 m - 52)%Z in
    let q := Z.shiftr m e in
    let r := (m mod 2 ^ e)%Z in
    let half := (2 ^ (e - 1))%Z in
    let q' := if (half <? r)%Z || ((r =? half)%Z && Z.odd q)
              then (q + 1)%Z else q in
    let v := (q' * 2 ^ e)%Z in
    if (v <? 2 ^ 1024)%Z then Finite v else PosInfinity.

Definition negate (a : number) : number :=
  match a with
  | NaN => NaN
  | Finite z => Finite (- z)
  | PosInfinity => NegInfinity
  | NegInfinity => PosInfinity
  end.

(** Strings are sequences of code units in the range 0 to 255. *)
Definition code (c : ascii) : nat := nat_of_ascii c.

(** White space and line terminators that [parseInt] skips: TAB, LF, VT,
    FF, CR, SP and NBSP. *)
Definition isWhiteSpace (c : ascii) : bool :=
  let n := code c in
  ((9 <=? n)%nat && (n <=? 13)%nat) || (n =? 32)%nat || (n =? 160)%nat.

Fixpoint trimStart (s : string) : string :=
  match s with
  | String c rest => if isWhiteSpace c then trimStart rest else s
  | EmptyString => s
  end.

Definition digitValue (c : ascii) : option Z :=
  let n := code c in
  if (48 <=? n)%nat && (n <=? 57)%nat then Some (Z.of_nat n - 48)%Z else None.

(** The longest prefix of decimal digits. *)
Fixpoint digitsPrefix (s : string) : list Z :=
  match s with
  | String c rest =>
      match digitValue c with
      | Some d => d :: digitsPrefix rest
      | None => []
      end
  | EmptyString => []
  end.

Definition mathInt (ds : list Z) : Z :=
  fold_left (fun acc d => (10 * acc + d)%Z) ds 0%Z.

(** [parseInt(s, 10)]: skip leading white space, read an optional sign,
    then the longest run of decimal digits; no digit gives NaN.  With an
    explicit radix of 10 no [0x] prefix is recognised.  The integer read
    is rounded to a Number; ECMAScript lets an engine approximate it past
    20 significant digits, the rounding here is the exact one. *)
Definition parseInt (s : string) : number :=
  let s1 := trimStart s in
  let '(negative, s2) :=
    match s1 with
    | String "-" rest => (true, rest)
    | String "+" rest => (false, rest)
    | _ => (false, s1)
    end in
  match digitsPrefix s2 with
  | [] => NaN
  | ds =>
      let n := toNumber (mathInt ds) in
      if negative then negate n else n
  end.

(** [s.split('.')]: the pieces between the dots; never empty, the empty
    string gives one empty piece. *)
Fixpoint split (s : string) : list string :=
  match s with
  | EmptyString => [EmptyString]
  | String c rest =>
      if Ascii.eqb c "." then EmptyString :: split rest
      else
        match split rest with
        | seg :: segs => String c seg :: segs
        | [] => [String c EmptyString]
        end
  end.

(* ================================================================= *)
(** ** isNewVersion *)

(** How the [for] loop of [isNewVersion] ends. *)
Inductive loopExit : Type :=
| BreakNewer (i : nat)   (* [newerAvailable = true; break] at index [i] *)
| BreakOlder (i : nat)   (* [olderAvailable = true; break] at index [i] *)
| Exhausted.             (* the condition [i < parts.length && i < currentVersionParts.length] failed *)

(** The loop from index [i] on, [parts] and [currentVersionParts] being
    what is left of the two arrays from that index. *)
Fixpoint versionLoop (i : nat) (parts currentVersionParts : list string)
  : loopExit :=
  match parts, currentVersionParts with
  | p :: parts', c :: currentVersionParts' =>
      let versionSegment := parseInt p in
      let currentVersionSegment := parseInt c in
      if gt versionSegment currentVersionSegment then BreakNewer i
      else if lt versionSegment currentVersionSegment then BreakOlder i
      else versionLoop (S i) parts' currentVersionParts'
  | _, _ => Exhausted
  end.

Definition runLoop (version currentVersion : string) : loopExit :=
  versionLoop 0 (split version) (split currentVersion).

Definition newerAvailable (x : loopExit) : bool :=
  match x with BreakNewer _ => true | _ => false end.

Definition olderAvailable (x : loopExit) : bool :=
  match x with BreakOlder _ => true | _ => false end.


(** The value [isNewVersion] returns. *)
Definition isNewVersion (version currentVersion : string) : bool :=
  newerAvailable (runLoop version currentVersion).

(** The parsed segments of a version string. *)
Definition segments (s : string) : list number := map parseInt (split s).

(** A dotted-numeric string: every piece between dots is a non-empty run
    of decimal digits. *)
Definition allDigits (s : string) : bool :=
  match s with
  | EmptyString => false
  | _ => (List.length (digitsPrefix s) =? String.length s)%nat
  end.

Definition dottedNumeric (s : string) : bool := forallb allDigits (split s).

(* ================================================================= *)
(** ** Effects, exceptions and the module's state *)

Inductive level : Type := Info | Warn | Error.

Inductive exn : Type :=
| FetchFailed            (* [fetch] rejected *)
| ResponseNotOk          (* [throw response] *)
| JsonFailed             (* [response.json()] rejected *)
| NoVersionProperty      (* [new Error('No version property')] *)
| UpdateFailed           (* [registration.update()] rejected *)
| RegisterFailed         (* [register] rejected *)
| GetRegistrationFailed  (* [getRegistration] threw or rejected *)
| PostMessageFailed      (* [postMessage] threw *)
| NotAFunction.          (* the TypeError of [version.split] on a value that is no string *)

(** What the module does to the outside. *)
Inductive effect : Type :=
| Log (l : level) (msg : string)      (* [infoLog], [warnLog], [errorLog] with tag 'SW' *)
| ReportException (tag : string)      (* [reportException(tag, err)] *)
| Register (script : string)          (* [navigator.serviceWorker.register(script)] *)
| Update                              (* [registration.update()] *)
| PostMessage (worker : nat) (msg : string)
| SetTimeoutReload (ms : Z)           (* [setTimeout(() => window.location.reload(), ms)] *)
| Reload                              (* [window.location.reload()] *)
| Emit (needsUpdate : bool)           (* a value delivered to the observers of [dimNeedsUpdate$] *)
| EmitError (e : exn).                (* an error notification delivered to them *)

Inductive workerState : Type :=
| Parsed | Installing | Installed | Activating | Activated | Redundant.

(** The two functions that the module assigns to a worker's
    [onstatechange]. *)
Inductive handler : Type :=
| WatchInstall           (* assigned in [registration.onupdatefound] *)
| SkipWaitingOnInstall.  (* assigned in [reloadDIM] *)

Record state : Type := mkState {
  (** [updateServiceWorker] has been replaced by the closure over the
      registration (it starts as [() => Promise.resolve(false)]) *)
  updateServiceWorkerSet : bool;
  (** the value held by [serviceWorkerUpdated$] *)
  serviceWorkerUpdated : bool;
  (** the exported variable [dimNeedsUpdate] *)
  dimNeedsUpdate : bool;
  (** [registration.onupdatefound] has been assigned *)
  onupdatefound : bool;
  (** the [onstatechange] property of each worker, last assignment first *)
  onstatechange : list (nat * handler);
  (** the 'controllerchange' listeners, oldest first, each with its own
      [preventDevToolsReloadLoop] *)
  controllerchange : list bool;
  (** the last value seen by the [distinctUntilChanged] of
      [serverVersionChanged$] *)
  compared : option bool;
  (** the last value of [serverVersionChanged$], which [shareReplay]
      replays and [combineLatest] combines *)
  serverVersionChanged : option bool;
  (** the last value seen by the [distinctUntilChanged] of
      [dimNeedsUpdate$] *)
  emitted : option bool;
  (** [dimNeedsUpdate$] is still subscribed to its two sources, and with
      it the timer of [serverVersionChanged$]: no error notification
      has gone through *)
  polling : bool
}.

(** The state when the module has been loaded and [dimNeedsUpdate$] has
    its subscriber. *)
Definition initial : state :=
  mkState false false false false [] [] None None None true.

Definition set_updateServiceWorkerSet (v : bool) (s : state) : state :=
  mkState v (serviceWorkerUpdated s) (dimNeedsUpdate s) (onupdatefound s)
    (onstatechange s) (controllerchange s) (compared s)
    (serverVersionChanged s) (emitted s) (polling s).
Definition set_serviceWorkerUpdated (v : bool) (s : state) : state :=
  mkState (updateServiceWorkerSet s) v (dimNeedsUpdate s) (onupdatefound s)
    (onstatechange s) (controllerchange s) (compared s)
    (serverVersionChanged s) (emitted s) (polling s).
Definition set_dimNeedsUpdate (v : bool) (s : state) : state :=
  mkState (updateServiceWorkerSet s) (serviceWorkerUpdated s) v
    (onupdatefound s) (onstatechange s) (controllerchange s) (compared s)
    (serverVersionChanged s) (emitted s) (polling s).
Definition set_onupdatefound (v : bool) (s : state) : state :=
  mkState (updateServiceWorkerSet s) (serviceWorkerUpdated s)
    (dimNeedsUpdate s) v (onstatechange s) (controllerchange s) (compared s)
    (serverVersionChanged s) (emitted s) (polling s).
Definition set_onstatechange (v : list (nat * handler)) (s : state) : state :=
  mkState (updateServiceWorkerSet s) (serviceWorkerUpdated s)
    (dimNeedsUpdate s) (onupdatefound s) v (controllerchange s) (compared s)
    (serverVersionChanged s) (emitted s) (polling s).
Definition set_controllerchange (v : list bool) (s : state) : state :=
  mkState (updateServiceWorkerSet s) (serviceWorkerUpdated s)
    (dimNeedsUpdate s) (onupdatefound s) (onstatechange s) v (compared s)
    (serverVersionChanged s) (emitted s) (polling s).
Definition set_compared (v : option bool) (s : state) : state :=
  mkState (updateServiceWorkerSet s) (serviceWorkerUpdated s)
    (dimNeedsUpdate s) (onupdatefound s) (onstatechange s)
    (controllerchange s) v (serverVersionChanged s) (emitted s) (polling s).
Definition set_serverVersionChanged (v : option bool) (s : state) : state :=
  mkState (updateServiceWorkerSet s) (serviceWorkerUpdated s)
    (dimNeedsUpdate s) (onupdatefound s) (onstatechange s)
    (controllerchange s) (compared s) v (emitted s) (polling s).
Definition set_emitted (v : option bool) (s : state) : state :=
  mkState (updateServiceWorkerSet s) (serviceWorkerUpdated s)
    (dimNeedsUpdate s) (onupdatefound s) (onstatechange s)
    (controllerchange s) (compared s) (serverVersionChanged s) v (polling s).
Definition set_polling (v : bool) (s : state) : state :=
  mkState (updateServiceWorkerSet s) (serviceWorkerUpdated s)
    (dimNeedsUpdate s) (onupdatefound s) (onstatechange s)
    (controllerchange s) (compared s) (serverVersionChanged s) (emitted s) v.

(** The handler currently assigned to worker [w]. *)
Definition handlerOf (w : nat) (s : state) : option handler :=
  match find (fun p => (fst p =? w)%nat) (onstatechange s) with
  | Some (_, h) => Some h
  | None => None
  end.

(* ================================================================= *)
(** ** A monad for code that reads and writes the state, acts on the
       outside and may throw *)

Inductive result (A : Type) : Type :=
| Return (a : A)
| Throw (e : exn).
Arguments Return {A} a.
Arguments Throw {A} e.

Definition M (A : Type) : Type := state -> result A * state * list effect.

Definition ret {A : Type} (a : A) : M A := fun s => (Return a, s, []).

Definition bind {A B : Type} (m : M A) (k : A -> M B) : M B :=
  fun s =>
    match m s with
    | (Return a, s1, t1) =>
        let '(r, s2, t2) := k a s1 in (r, s2, t1 ++ t2)
    | (Throw e, s1, t1) => (Throw e, s1, t1)
    end.

Definition throw {A : Type} (e : exn) : M A := fun s => (Throw e, s, []).

(** [try { m } catch (e) { h e }], and [p.catch(h)] on a promise. *)
Definition tryCatch {A : Type} (m : M A) (h : exn -> M A) : M A :=
  fun s =>
    match m s with
    | (Throw e, s1, t1) =>
        let '(r, s2, t2) := h e s1 in (r, s2, t1 ++ t2)
    | done => done
    end.

Definition perform (e : effect) : M unit := fun s => (Return tt, s, [e]).
Definition gets {A : Type} (f : state -> A) : M A :=
  fun s => (Return (f s), s, []).
Definition modify (f : state -> state) : M unit :=
  fun s => (Return tt, f s, []).

Declare Scope js_scope.
Delimit Scope js_scope with js.
Notation "x <- m ;; k" := (bind m (fun x => k))
  (at level 61, m at next level, right associativity) : js_scope.
Notation "m ;; k" := (bind m (fun _ => k))
  (at level 61, right associativity) : js_scope.
Open Scope js_scope.

Definition when (b : bool) (m : M unit) : M unit := if b then m else ret tt.

Definition infoLog (msg : string) : M unit := perform (Log Info msg).
Definition warnLog (msg : string) : M unit := perform (Log Warn msg).
Definition errorLog (msg : string) : M unit := perform (Log Error msg).
Definition reportException (tag : string) : M unit :=
  perform (ReportException tag).
Definition reload : M unit := perform Reload.

Definition outcome {A : Type} (x : result A * state * list effect) : result A :=
  fst (fst x).
Definition after {A : Type} (x : result A * state * list effect) : state :=
  snd (fst x).
Definition trace {A : Type} (x : result A * state * list effect) : list effect :=
  snd x.

(** [isNewVersion] with its advisory log. *)
Definition isNewVersionM (version currentVersion : string) : M bool :=
  let exit := runLoop version currentVersion in
  (if olderAvailable exit then
     warnLog ("Server version " ++ version
              ++ " is older than current version " ++ currentVersion)%string
   else if newerAvailable exit then
     infoLog "Found newer version on server, attempting to update"
   else ret tt) ;;
  ret (newerAvailable exit).

(* ================================================================= *)
(** ** What the environment answers *)

(** [await response.json()]: it rejects (or gives a value without
    properties, so that reading [data.version] throws), or gives an
    object whose [version] property is absent or falsy, a string, or a
    truthy value that is no string (a number, [true], an object). *)
Inductive jsonBody : Type :=
| Unreadable
| Json (version : option string)
| JsonOther.

(** A value that the code holds for a string under the unchecked cast
    [as string]. *)
Inductive asString : Type :=
| IsString (s : string)
| NotAString.

(** [await fetch('/version.json')]. *)
Inductive fetchResult : Type :=
| FetchRejected
| Response (ok : bool) (body : jsonBody).

(** What a call of [registration.update()] meets: whether the promise
    rejects, and whether [registration.waiting] holds a worker when the
    [then] callback runs. *)
Record updateEnv : Type := mkUpdateEnv {
  updateRejects : bool;
  waiting : bool
}.

(** One firing of the timer. *)
Record tick : Type := mkTick {
  fetched : fetchResult;
  update : updateEnv
}.

(** [await navigator.serviceWorker.getRegistration()]. *)
Inductive getRegistrationResult : Type :=
| GetRegistrationThrows
| NoRegistration
| Registration (waitingWorker installingWorker : option nat).

Record reloadEnv : Type := mkReloadEnv {
  getRegistration : getRegistrationResult;
  postMessageThrows : bool
}.

Inductive event : Type :=
| Load (supported : bool) (registers : bool)
    (* the window's 'load'; ['serviceWorker' in navigator]; whether
       [register] resolves *)
| UpdateFound (installing : nat)
    (* 'updatefound' on the registration, [registration.installing] *)
| StateChange (worker : nat) (st : workerState) (controller : bool)
    (* 'statechange' on a worker, its [state], and whether
       [navigator.serviceWorker.controller] is set *)
| ControllerChange
| Tick (t : tick)
| CallReloadDIM (env : reloadEnv).

(** The constants injected at build time. *)
Record build : Type := mkBuild {
  debugSW : bool;          (* [$featureFlags.debugSW] *)
  DIM_VERSION : string     (* [$DIM_VERSION] *)
}.

(* ================================================================= *)
(** ** Observables

    An observable that has delivered all it will deliver when control
    returns is a computation of the list of its values; an error
    notification is a [Throw].  Operators are written on one incoming
    value, and [|>] feeds every value of a source through the next
    operator.  Every promise started on a tick of the timer settles
    before the next event. *)

Fixpoint forEach {A B : Type} (k : A -> M (list B)) (xs : list A)
  : M (list B) :=
  match xs with
  | [] => ret []
  | x :: xs' => ys <- k x ;; zs <- forEach k xs' ;; ret (ys ++ zs)
  end.

Definition pipe {A B : Type} (src : M (list A)) (op : A -> M (list B))
  : M (list B) :=
  xs <- src ;; forEach op xs.

Notation "src |> op" := (pipe src op) (at level 62, left associativity)
  : js_scope.

Definition from {A : Type} (promise : M A) : M (list A) :=
  a <- promise ;; ret [a].
Definition of' {A : Type} (a : A) : M (list A) := ret [a].
Definition empty {A : Type} : M (list A) := ret [].
Definition catchError {A : Type} (src : M (list A))
  (selector : exn -> M (list A)) : M (list A) :=
  tryCatch src selector.
Definition map {A B : Type} (project : A -> M B) (a : A) : M (list B) :=
  b <- project a ;; ret [b].
Definition switchMap {A B : Type} (project : A -> M (list B)) (a : A)
  : M (list B) :=
  project a.
Definition tap {A : Type} (next : A -> M unit) (a : A) : M (list A) :=
  next a ;; ret [a].

(** [distinctUntilChanged()] on booleans, its memory kept in a field of
    the state. *)
Definition distinctUntilChanged (last : state -> option bool)
  (set_last : option bool -> state -> state) (v : bool) : M (list bool) :=
  prev <- gets last ;;
  match prev with
  | Some u =>
      if Bool.eqb u v then ret []
      else modify (set_last (Some v)) ;; ret [v]
  | None => modify (set_last (Some v)) ;; ret [v]
  end.

(** [shareReplay()]: remember the value for later subscribers and hand
    it to the present ones. *)
Definition shareReplay (v : bool) : M (list bool) :=
  modify (set_serverVersionChanged (Some v)) ;; ret [v].

(** [combineLatest(serverVersionChanged$, serviceWorkerUpdated$, f)],
    run when one of the two sources has delivered a value: nothing as
    long as [serverVersionChanged$] has had no value. *)
Definition combineLatest (f : bool -> bool -> bool) : M (list bool) :=
  a <- gets serverVersionChanged ;;
  b <- gets serviceWorkerUpdated ;;
  match a with
  | Some serverVersionChanged => ret [f serverVersionChanged b]
  | None => ret []
  end.

Section RegisterServiceWorker.

Variable cfg : build.

(* ================================================================= *)
(** ** getServerVersion and updateServiceWorker *)

Definition getServerVersion (r : fetchResult) : M asString :=
  match r with
  | FetchRejected => throw FetchFailed
  | Response ok body =>
      if ok then
        match body with
        | Unreadable => throw JsonFailed
        | Json None | Json (Some EmptyString) => throw NoVersionProperty
        | Json (Some version) =>
            infoLog "Got server version" ;; ret (IsString version)
        | JsonOther =>
            infoLog "Got server version" ;; ret NotAString
        end
      else throw ResponseNotOk
  end.

(** The call [isNewVersion(version, $DIM_VERSION)] on what
    [getServerVersion] returned: on a value that is no string
    [version.split] is not a function. *)
Definition isNewVersionOf (version : asString) (currentVersion : string)
  : M bool :=
  match version with
  | IsString v => isNewVersionM v currentVersion
  | NotAString => throw NotAFunction
  end.

Definition registration_update (u : updateEnv) : M unit :=
  perform Update ;;
  if updateRejects u then throw UpdateFailed else ret tt.

(** The function held by the variable [updateServiceWorker]: the no-op
    it is initialised with, or the closure assigned after registration.
    The value produced by [catch] is what [then] receives, and the
    [then] callback takes no argument. *)
Definition updateServiceWorker (u : updateEnv) : M bool :=
  assigned <- gets updateServiceWorkerSet ;;
  if assigned then
    infoLog "Checking for service worker update." ;;
    _ <- tryCatch
           (registration_update u ;; ret None)
           (fun err =>
              when (debugSW cfg)
                (errorLog "Unable to update service worker." ;;
                 reportException "service-worker") ;;
              ret (Some false)) ;;
    if waiting u then
      infoLog "New content is available; please refresh. (from update)" ;;
      ret true
    else
      infoLog "Updated, but theres not a new worker waiting" ;;
      ret false
  else ret false.

(* ================================================================= *)
(** ** serverVersionChanged$ and dimNeedsUpdate$ *)

(** [serverVersionChanged$] on one firing of the timer. *)
Definition serverVersionChanged_S (t : tick) : M (list bool) :=
  of' tt
  |> switchMap (fun _ =>
       catchError (from (getServerVersion (fetched t))) (fun _err => empty))
  |> map (fun version => isNewVersionOf version (DIM_VERSION cfg))
  |> distinctUntilChanged compared set_compared
  |> switchMap (fun needsUpdate =>
       if needsUpdate : bool then from (updateServiceWorker (update t))
       else of' false)
  |> shareReplay.

(** [dimNeedsUpdate$] when one of its two sources has delivered. *)
Definition dimNeedsUpdate_S : M (list bool) :=
  combineLatest (fun serverVersionChanged updated =>
                   serverVersionChanged || updated)
  |> tap (fun needsUpdate => modify (set_dimNeedsUpdate needsUpdate))
  |> distinctUntilChanged emitted set_emitted.

(** Delivery to the observers of [dimNeedsUpdate$]. *)
Definition observe (src : M (list bool)) : M unit :=
  vs <- src ;; 
  (fix deliver (vs : list bool) : M unit :=
     match vs with
     | [] => ret tt
     | v :: vs' => perform (Emit v) ;; deliver vs'
     end) vs.

(** [serviceWorkerUpdated$.next(v)]: the subject keeps the value, and
    hands it to [dimNeedsUpdate$] if that is still subscribed. *)
Definition serviceWorkerUpdated_next (v : bool) : M unit :=
  modify (set_serviceWorkerUpdated v) ;;
  live <- gets polling ;;
  when live (observe dimNeedsUpdate_S).

(** A firing of the timer: the value of [serverVersionChanged$], if
    any, reaches [dimNeedsUpdate$].  An exception that leaves an operator
    is an error notification: it goes down to the observers of
    [dimNeedsUpdate$] and ends the subscriptions, to the timer and, in
    [combineLatest], to [serviceWorkerUpdated$]; [dimNeedsUpdate$] is
    not subscribed to again. *)
Definition onTick (t : tick) : M unit :=
  live <- gets polling ;;
  when live
    (tryCatch
       (vs <- serverVersionChanged_S t ;;
        forEach (fun _ => observe dimNeedsUpdate_S ;; ret (@nil unit)) vs ;;
        ret tt)
       (fun err => modify (set_polling false) ;; perform (EmitError err))).

(* ================================================================= *)
(** ** registerServiceWorker and its callbacks *)

Definition assign_onstatechange (w : nat) (h : handler) (s : state) : state :=
  set_onstatechange ((w, h) :: onstatechange s) s.

(** The 'controllerchange' listener, on its variable
    [preventDevToolsReloadLoop]; returns the variable's new value. *)
Definition onControllerChange (preventDevToolsReloadLoop : bool) : M bool :=
  if preventDevToolsReloadLoop then ret preventDevToolsReloadLoop
  else reload ;; ret true.

(** [let preventDevToolsReloadLoop = false;] and [addEventListener]. *)
Definition addControllerChangeListener : M unit :=
  modify (fun s => set_controllerchange (controllerchange s ++ [false]) s).

(** [installingWorker.onstatechange] as assigned in [onupdatefound]. *)
Definition watchInstall (st : workerState) (controller : bool) : M unit :=
  match st with
  | Installed =>
      if controller then
        infoLog "New content is available; please refresh. (from onupdatefound)" ;;
        serviceWorkerUpdated_next true ;;
        addControllerChangeListener
      else
        when (debugSW cfg) (infoLog "Content is cached for offline use.")
  | _ => when (debugSW cfg) (infoLog "New Service Worker state: ")
  end.

(** [registration.onupdatefound]. *)
Definition onUpdateFound (installingWorker : nat) : M unit :=
  when (debugSW cfg)
    (infoLog "A new Service Worker version has been found...") ;;
  modify (assign_onstatechange installingWorker WatchInstall).

(** [registerServiceWorker()] followed by the window's 'load'. *)
Definition registerServiceWorker (supported registers : bool) : M unit :=
  if negb supported then ret tt
  else
    tryCatch
      (perform (Register "/service-worker.js") ;;
       (if registers then ret tt else throw RegisterFailed) ;;
       modify (set_onupdatefound true) ;;
       modify (set_updateServiceWorkerSet true))
      (fun err =>
         errorLog "Unable to register service worker." ;;
         reportException "service-worker").

Fixpoint dispatchControllerChange (listeners : list bool) : M (list bool) :=
  match listeners with
  | [] => ret []
  | guard :: rest =>
      guard' <- onControllerChange guard ;;
      rest' <- dispatchControllerChange rest ;;
      ret (guard' :: rest')
  end.

Definition controllerChange : M unit :=
  listeners <- gets controllerchange ;;
  listeners' <- dispatchControllerChange listeners ;;
  modify (set_controllerchange listeners').

(* ================================================================= *)
(** ** reloadDIM *)

Definition await_getRegistration (env : reloadEnv)
  : M (option (option nat * option nat)) :=
  match getRegistration env with
  | GetRegistrationThrows => throw GetRegistrationFailed
  | NoRegistration => ret None
  | Registration waitingWorker installingWorker =>
      ret (Some (waitingWorker, installingWorker))
  end.

Definition postMessage (env : reloadEnv) (w : nat) (msg : string) : M unit :=
  if postMessageThrows env then throw PostMessageFailed
  else perform (PostMessage w msg).

(** [installingWorker.onstatechange] as assigned in [reloadDIM]. *)
Definition skipWaitingOnInstall (installingWorker : nat) (st : workerState)
  : M unit :=
  match st with
  | Installed =>
      infoLog "installing service worker installed, skip waiting" ;;
      perform (PostMessage installingWorker "skipWaiting")
  | _ => ret tt
  end.

(** The [try] block of [reloadDIM]. *)
Definition reloadDIM_try (env : reloadEnv) : M unit :=
  registration <- await_getRegistration env ;;
  match registration with
  | None => errorLog "No registration!" ;; reload
  | Some (None, installingWorker) =>
      errorLog "registration.waiting is null!" ;;
      match installingWorker with
      | Some w =>
          infoLog "found an installing service worker" ;;
          modify (assign_onstatechange w SkipWaitingOnInstall)
      | None => reload
      end
  | Some (Some w, _) =>
      infoLog "posting skip waiting" ;;
      postMessage env w "skipWaiting" ;;
      perform (SetTimeoutReload 2000)
  end.

Definition reloadDIM (env : reloadEnv) : M unit :=
  tryCatch (reloadDIM_try env)
    (fun e => errorLog "Error checking registration:" ;; reload).

(* ================================================================= *)
(** ** The event loop *)

Definition handle (e : event) : M unit :=
  match e with
  | Load supported registers => registerServiceWorker supported registers
  | UpdateFound w =>
      assigned <- gets onupdatefound ;;
      when assigned (onUpdateFound w)
  | StateChange w st controller =>
      h <- gets (handlerOf w) ;;
      match h with
      | Some WatchInstall => watchInstall st controller
      | Some SkipWaitingOnInstall => skipWaitingOnInstall w st
      | None => ret tt
      end
  | ControllerChange => controllerChange
  | Tick t => onTick t
  | CallReloadDIM env => reloadDIM env
  end.

(** Events are handled one after the other; an exception that leaves a
    handler does not stop the loop. *)
Fixpoint run (es : list event) : M unit :=
  match es with
  | [] => ret tt
  | e :: es' => tryCatch (handle e) (fun _ => ret tt) ;; run es'
  end.

End RegisterServiceWorker.

(* ================================================================= *)
(** ** Reading a trace *)

Definition isReload (e : effect) : bool :=
  match e with Reload => true | _ => false end.
Definition isUpdate (e : effect) : bool :=
  match e with Update => true | _ => false end.
Definition isLog (e : effect) : bool :=
  match e with Log _ _ => true | _ => false end.
Definition isInfoLog (e : effect) : bool :=
  match e with Log Info _ => true | _ => false end.

Definition count (p : effect -> bool) (t : list effect) : nat :=
  List.length (filter p t).

(** The values delivered to the observers of [dimNeedsUpdate$]. *)
Fixpoint emissions (t : list effect) : list bool :=
  match t with
  | [] => []
  | Emit v :: t' => v :: emissions t'
  | _ :: t' => emissions t'
  end.

(* ================================================================= *)
(** ** Vocabulary of the statements *)

(** No position before [n] made the loop break. *)
Definition undecidedBefore (n : nat) (xs ys : list number) : Prop :=
  forall j a b, j < n ->
    nth_error xs j = Some a -> nth_error ys j = Some b ->
    gt a b = false /\ lt a b = false.

(** What each way of leaving the loop says of the parsed segments. *)
Definition loopSpec (k : nat) (xs ys : list number) (x : loopExit) : Prop :=
  match x with
  | BreakNewer i =>
      exists n a b, i = k + n /\ nth_error xs n = Some a /\
        nth_error ys n = Some b /\ gt a b = true /\ undecidedBefore n xs ys
  | BreakOlder i =>
      exists n a b, i = k + n /\ nth_error xs n = Some a /\
        nth_error ys n = Some b /\ gt a b = false /\ lt a b = true /\
        undecidedBefore n xs ys
  | Exhausted =>
      forall n a b, nth_error xs n = Some a -> nth_error ys n = Some b ->
        gt a b = false /\ lt a b = false
  end.

Definition spent (listeners : list bool) : list bool :=
  List.map (fun _ => true) listeners.

(** The claim on a rejected update check, as the specification words it:
    the promise resolves to false and the error is logged and
    reported. *)
Definition rejectedUpdateResolvesFalseLoggedReported
  (cfg : build) (u : updateEnv) (s : state) : Prop :=
  let r := updateServiceWorker cfg u s in
  outcome r = Return false /\
  In (Log Error "Unable to update service worker.") (trace r) /\
  In (ReportException "service-worker") (trace r).


(** The failures of a poll: the fetch rejects, the response is not OK,
    its body cannot be read as JSON, or the JSON has no (or an empty)
    [version]. *)
Inductive pollFailure : fetchResult -> Prop :=
| NetworkFailure : pollFailure FetchRejected
| NotOk (body : jsonBody) : pollFailure (Response false body)
| ParseFailure : pollFailure (Response true Unreadable)
| VersionMissing : pollFailure (Response true (Json None))
| VersionEmpty : pollFailure (Response true (Json (Some ""))).

(** The claim on a failed poll, as the specification words it: the
    failure is swallowed and not propagated, it is logged, the tick
    gives no update signal, and the timer goes on. *)
Definition pollFailureSwallowedLogged (cfg : build) (t : tick) (s : state)
  : Prop :=
  let r := onTick cfg t s in
  outcome r = Return tt /\
  (exists l msg, In (Log l msg) (trace r)) /\
  emissions (trace r) = [] /\
  count isUpdate (trace r) = 0 /\
  polling (after r) = polling s.

(** A tick on which the server answers with version [v]; [waits] tells
    whether a worker is waiting after an update check. *)
Definition serves (v : string) (waits : bool) : event :=
  Tick (mkTick (Response true (Json (Some v))) (mkUpdateEnv false waits)).

(** A tick on which the server answers with version [fst p], the update
    check meeting [snd p]. *)
Definition polled (p : string * updateEnv) : event :=
  Tick (mkTick (Response true (Json (Some (fst p)))) (snd p)).

(** What [getServerVersion] hands on to the comparison: one value, or
    none when the poll fails. *)
Definition served (r : fetchResult) : list asString :=
  match r with
  | Response true (Json (Some (String c v))) => [IsString (String c v)]
  | Response true JsonOther => [NotAString]
  | _ => []
  end.

(** The string versions among them. *)
Definition servedVersion (r : fetchResult) : list string :=
  match r with
  | Response true (Json (Some (String c v))) => [String c v]
  | _ => []
  end.

(** The advisory log of [isNewVersion]. *)
Definition advisory (version currentVersion : string) : list effect :=
  let exit := runLoop version currentVersion in
  if olderAvailable exit then
    [Log Warn ("Server version " ++ version
                 ++ " is older than current version " ++ currentVersion)%string]
  else if newerAvailable exit then
    [Log Info "Found newer version on server, attempting to update"]
  else [].

(** The number of times a sequence of comparison results changes to
    true, [prev] being the result before the first. *)
Fixpoint changesToTrue (prev : option bool) (bs : list bool) : nat :=
  match bs with
  | [] => 0
  | b :: bs' =>
      (match prev with
       | Some true => 0
       | _ => if b then 1 else 0
       end) + changesToTrue (Some b) bs'
  end.

(** The value [serverVersionChanged$] takes when the comparison changes
    to [b], and the trace of getting it. *)
Definition resolved (cfg : build) (u : updateEnv) (b : bool) (s : state)
  : bool * list effect :=
  if b then
    match updateServiceWorker cfg u s with
    | (Return v, _, t) => (v, t)
    | (Throw _, _, t) => (false, t)
    end
  else (false, []).

(* ================================================================= *)
(** ** Vocabulary of the corrected statements *)





(** The claim on a first install, as the specification words it: no
    reload, the latch still false, no listener added, and an
    informational log, nothing else, emitted. *)
Definition firstInstallLogsOnly (cfg : build) (w : nat) (s : state) : Prop :=
  let r := handle cfg (StateChange w Installed false) s in
  count isReload (trace r) = 0 /\
  serviceWorkerUpdated (after r) = false /\
  controllerchange (after r) = controllerchange s /\
  exists msg, trace r = [Log Info msg].

(* ================================================================= *)
(** ** Vocabulary of the further statements *)

(** The four fields that [dimNeedsUpdate$] reads and writes. *)
Definition signals (s : state) : option bool * bool * option bool * bool :=
  (serverVersionChanged s, serviceWorkerUpdated s, emitted s,
   dimNeedsUpdate s).

(** [dimNeedsUpdate$] on those fields: the fields afterwards and the
    values delivered. *)
Definition deliver (g : option bool * bool * option bool * bool)
  : (option bool * bool * option bool * bool) * list bool :=
  let '(latest, updated, last, flag) := g in
  match latest with
  | None => (g, [])
  | Some x =>
      let v := x || updated in
      if match last with Some e => Bool.eqb e v | None => false end
      then ((latest, updated, last, v), [])
      else ((latest, updated, Some v, v), [v])
  end.

(** The comparison result that an event brings, if it is a successful
    poll. *)
Definition comparison (cfg : build) (e : event) : list bool :=
  match e with
  | Tick t =>
      List.map (fun v => isNewVersion v (DIM_VERSION cfg))
        (servedVersion (fetched t))
  | _ => []
  end.

Definition isSuccessfulPoll (e : event) : bool :=
  match e with
  | Tick t => match servedVersion (fetched t) with [] => false | _ => true end
  | _ => false
  end.

(** [serviceWorkerUpdated$.next(true)] as [dimNeedsUpdate$] sees it:
    one delivery if it is still subscribed. *)
Definition nextTrue (s : state) : result unit * state * list effect :=
  if polling s
  then observe dimNeedsUpdate_S (set_serviceWorkerUpdated true s)
  else (Return tt, set_serviceWorkerUpdated true s, []).

(** The event is a tick whose poll brings a version that is no string. *)
Definition endsPoll (e : event) : bool :=
  match e with
  | Tick t =>
      match fetched t with
      | Response true JsonOther => true
      | _ => false
      end
  | _ => false
  end.

(** The events up to the tick, if any, that ends the subscriptions. *)
Fixpoint whileSubscribed (es : list event) : list event :=
  match es with
  | [] => []
  | e :: es' => if endsPoll e then [] else e :: whileSubscribed es'
  end.

Definition isRegistration (e : event) : bool :=
  match e with
  | Load true true => true
  | _ => false
  end.

(** No two neighbours of [prev :: l] are equal. *)
Fixpoint changing (prev : option bool) (l : list bool) : Prop :=
  match l with
  | [] => True
  | v :: l' => prev <> Some v /\ changing (Some v) l'
  end.

(** The last of the values delivered, [prev] if there is none. *)
Definition lastOf (prev : option bool) (l : list bool) : option bool :=
  fold_left (fun _ v => Some v) l prev.

(** The flag [dimNeedsUpdate] holds the last value delivered, false
    before the first. *)
Definition flagFollows (s : state) : Prop :=
  dimNeedsUpdate s = match emitted s with Some v => v | None => false end.

(** The fields that the registration and the workers' events write. *)
Definition wiring (s : state)
  : bool * bool * list (nat * handler) * list bool :=
  (updateServiceWorkerSet s, onupdatefound s, onstatechange s,
   controllerchange s).

(** A worker reaches 'installed' while the page has a controller. *)
Definition install (w : nat) : event := StateChange w Installed true.

(** The flag is the disjunction of the two inputs. *)
Definition flagIsOr (s : state) : Prop :=
  dimNeedsUpdate s
  = match serverVersionChanged s with
    | Some x => x || serviceWorkerUpdated s
    | None => false
    end.

(* ================================================================= *)
(** ** Vendor drops: the cached fetch of vendorengrams.xyz

    The types [VendorDropXyz], [VendorDrop] and [VendorDropsState] and
    the function [toVendorDrop] are declared in other modules; of a
    [VendorDrop] the code reads [nextRefresh], of the state
    [vendorDrops]. *)

Section VendorEngrams.

Variables VendorDropXyz VendorDrop VendorDropsState : Type.
Variable toVendorDrop : VendorDropXyz -> VendorDrop.

(** The time value of [vd.nextRefresh], [None] for an invalid Date. *)
Variable nextRefresh : VendorDrop -> option Z.

(** [vendorDropsState.vendorDrops], [None] when it is undefined or
    null. *)
Variable vendorDrops : VendorDropsState -> option (list VendorDrop).

(** [vd.nextRefresh <= new Date()]: false on an invalid Date.  The clock
    is read once for the whole scan of the drops. *)
Definition refreshDue (now : Z) (vd : VendorDrop) : bool :=
  match nextRefresh vd with
  | Some t => (t <=? now)%Z
  | None => false
  end.

Definition dropsNeedRefresh (now : Z) (vendorDropsState : VendorDropsState)
  : bool :=
  match vendorDrops vendorDropsState with
  | None => true
  | Some [] => true
  | Some drops =>
      match find (refreshDue now) drops with
      | Some _ => true
      | None => false
      end
  end.

(** What [response.json()] resolves to. *)
Inductive dropsBody : Type :=
| BodyRejects                          (* the promise rejects *)
| BodyArray (drops : list VendorDropXyz)
| BodyOther.                           (* a value without [map]: null, a number, ... *)

(** What [fetch(request)] settles to: a rejection, or a response with
    its status and body. *)
Inductive vendorEngramsResponse : Type :=
| Rejects
| Responds (status : Z) (body : dropsBody).

Inductive vendorEngramsError : Type :=
| ServiceCallFailed   (* [new Error(t('VendorEngramsXyz.ServiceCallFailed'))] *)
| BodyFailed          (* the rejection of [response.json()] *)
| NotAnArray.         (* the TypeError of [vendorEngramsResponse.map] *)

(** [handleVendorEngramsErrors], given to [then] for both settlements:
    the reason of a rejection has no [status] of 200.  The promise
    [response.json()] is an object, so [|| []] never applies. *)
Definition handleVendorEngramsErrors (response : vendorEngramsResponse)
  : vendorEngramsError + dropsBody :=
  match response with
  | Rejects => inl ServiceCallFailed
  | Responds status body =>
      if (status =? 200)%Z then inr body else inl ServiceCallFailed
  end.

Inductive vendorAction : Type :=
| LoadVendorDrops (drops : list VendorDrop).    (* [loadVendorDrops(vendorDrops)] *)

Inductive vendorRequest : Type :=
| Post (url : string) (accept : string).

(** [vendorEngramsFetch(url)]: the request it makes. *)
Definition vendorEngramsFetch (url : string) : vendorRequest :=
  Post url "application/json".

(** What a call of the thunk of [getAllVendorDrops] does: what it
    returns or throws, the requests sent and the actions dispatched. *)
Record vendorRun : Type := mkVendorRun {
  returned : vendorEngramsError + option (list VendorDrop);
  requests : list vendorRequest;
  dispatched : list vendorAction
}.

Definition getAllVendorDrops (now : Z) (vendorDropsState : VendorDropsState)
  (net : vendorEngramsResponse) : vendorRun :=
  if negb (dropsNeedRefresh now vendorDropsState) then
    mkVendorRun (inr (vendorDrops vendorDropsState)) [] []
  else
    let request :=
      vendorEngramsFetch
        "https://api.vendorengrams.xyz/getVendorDrops?source=DIM" in
    match handleVendorEngramsErrors net with
    | inl e => mkVendorRun (inl e) [request] []
    | inr BodyRejects => mkVendorRun (inl BodyFailed) [request] []
    | inr BodyOther => mkVendorRun (inl NotAnArray) [request] []
    | inr (BodyArray vendorEngramsResponse) =>
        let vendorDrops := List.map toVendorDrop vendorEngramsResponse in
        mkVendorRun (inr (Some vendorDrops)) [request]
          [LoadVendorDrops vendorDrops]
    end.

End VendorEngrams.

Arguments BodyRejects {VendorDropXyz}.
Arguments BodyOther {VendorDropXyz}.
Arguments BodyArray {VendorDropXyz} drops.
Arguments Rejects {VendorDropXyz}.
Arguments Responds {VendorDropXyz} status body.
Arguments LoadVendorDrops {VendorDrop} drops.
Arguments returned {VendorDrop} v.
Arguments requests {VendorDrop} v.
Arguments dispatched {VendorDrop} v.
Arguments refreshDue {VendorDrop} nextRefresh now vd.
Arguments dropsNeedRefresh {VendorDrop VendorDropsState} nextRefresh
  vendorDrops now vendorDropsState.
Arguments handleVendorEngramsErrors {VendorDropXyz} response.
Arguments getAllVendorDrops {VendorDropXyz VendorDrop VendorDropsState}
  toVendorDrop nextRefresh vendorDrops now vendorDropsState net.

(* ================================================================= *)
(** * Properties of the comparison of Numbers *)

Lemma lt_irrefl (a : number) : lt a a = false.
Proof. destruct a; simpl; auto using Z.ltb_irrefl. Qed.

Lemma gt_irrefl (a : number) : gt a a = false.
Proof. apply lt_irrefl. Qed.

Lemma lt_asym (a b : number) : lt a b = true -> lt b a = false.
Proof.
  destruct a, b; simpl; try discriminate; auto.
  intros H. apply Z.ltb_lt in H. apply Z.ltb_ge. lia.
Qed.

Lemma gt_lt_exclusive (a b : number) : gt a b = true -> lt a b = false.
Proof. unfold gt. apply lt_asym. Qed.



(** Two Numbers of which none is NaN and none is below the other are the
    same Number. *)
Lemma trichotomy (a b : number) :
  isNaN a = false -> isNaN b = false ->
  gt a b = false -> lt a b = false -> a = b.
Proof.
  unfold gt. destruct a, b; simpl; try discriminate; auto.
  intros _ _ H1 H2. apply Z.ltb_ge in H1, H2. f_equal. lia.
Qed.

Lemma toNumber_not_NaN (m : Z) : isNaN (toNumber m) = false.
Proof.
  unfold toNumber. destruct (m <? 2 ^ 53)%Z; [reflexivity|].
  cbv zeta.
  match goal with |- context [if ?c then Finite ?v else PosInfinity] =>
    destruct c end; reflexivity.
Qed.


(* ================================================================= *)
(** * parseInt on digits *)

Lemma parseInt_digit (c : ascii) (rest : string) (d : Z) :
  digitValue c = Some d ->
  parseInt (String c rest) = toNumber (mathInt (d :: digitsPrefix rest)).
Proof.
  intros H.
  destruct c as [[] [] [] [] [] [] [] []];
    try discriminate H; injection H as <-; reflexivity.
Qed.

Lemma allDigits_head (s : string) :
  allDigits s = true ->
  exists c rest d, s = String c rest /\ digitValue c = Some d.
Proof.
  destruct s as [|c rest]; [discriminate|].
  unfold allDigits. cbn [digitsPrefix String.length].
  destruct (digitValue c) as [d|] eqn:E.
  - intros _. now exists c, rest, d.
  - cbn. discriminate.
Qed.

Lemma parseInt_allDigits (s : string) :
  allDigits s = true -> isNaN (parseInt s) = false.
Proof.
  intros H. destruct (allDigits_head s H) as (c & rest & d & -> & Hd).
  rewrite (parseInt_digit _ _ _ Hd). apply toNumber_not_NaN.
Qed.


Lemma segments_numeric (s : string) (i : nat) (a : number) :
  dottedNumeric s = true -> nth_error (segments s) i = Some a ->
  isNaN a = false.
Proof.
  unfold dottedNumeric, segments. intros H Hi.
  apply nth_error_In in Hi. apply in_map_iff in Hi as (x & <- & Hx).
  rewrite forallb_forall in H. apply parseInt_allDigits. now apply H.
Qed.

(* ================================================================= *)
(** * The loop of isNewVersion *)

Lemma undecidedBefore_cons (n : nat) (a b : number) (xs ys : list number) :
  gt a b = false -> lt a b = false -> undecidedBefore n xs ys ->
  undecidedBefore (S n) (a :: xs) (b :: ys).
Proof.
  intros Hg Hl H j a' b' Hj Ha Hb. destruct j as [|j]; simpl in *.
  - injection Ha as <-. injection Hb as <-. now split.
  - apply (H j); auto. lia.
Qed.

Lemma versionLoop_spec (parts currentVersionParts : list string) (k : nat) :
  loopSpec k (List.map parseInt parts) (List.map parseInt currentVersionParts)
    (versionLoop k parts currentVersionParts).
Proof.
  revert currentVersionParts k.
  induction parts as [|p ps IH]; intros [|c cs] k; simpl;
    try (intros [|n] a b; simpl; discriminate).
  destruct (gt (parseInt p) (parseInt c)) eqn:Hg.
  - exists 0, (parseInt p), (parseInt c). simpl.
    repeat (split; [auto; fail|]). unfold undecidedBefore; intros; lia.
  - destruct (lt (parseInt p) (parseInt c)) eqn:Hl.
    + exists 0, (parseInt p), (parseInt c). simpl.
      repeat (split; [auto; fail|]). unfold undecidedBefore; intros; lia.
    + specialize (IH cs (S k)).
      destruct (versionLoop (S k) ps cs); simpl in *.
      * destruct IH as (n & a & b & -> & Ha & Hb & Hab & Hu).
        exists (S n), a, b. simpl. split; [lia|].
        repeat (split; [assumption|]). now apply undecidedBefore_cons.
      * destruct IH as (n & a & b & -> & Ha & Hb & Hab & Hab' & Hu).
        exists (S n), a, b. simpl. split; [lia|].
        repeat (split; [assumption|]). now apply undecidedBefore_cons.
      * intros [|n] a b; simpl.
        -- intros [= <-] [= <-]. now split.
        -- apply IH.
Qed.

Lemma runLoop_spec (A B : string) :
  loopSpec 0 (segments A) (segments B) (runLoop A B).
Proof. apply versionLoop_spec. Qed.

Lemma isNewVersion_true (A B : string) :
  isNewVersion A B = true ->
  exists i a b, runLoop A B = BreakNewer i /\
    nth_error (segments A) i = Some a /\ nth_error (segments B) i = Some b /\
    gt a b = true /\ undecidedBefore i (segments A) (segments B).
Proof.
  unfold isNewVersion. intros H. pose proof (runLoop_spec A B) as S.
  destruct (runLoop A B) as [i| |]; try discriminate.
  destruct S as (n & a & b & -> & Ha & Hb & Hab & Hu).
  exists n, a, b. auto.
Qed.

(** A position where the first version is greater, with equal segments
    before it, makes the loop break there with [newerAvailable]. *)
Lemma first_greater_decides (A B : string) (i : nat) (a b : number) :
  nth_error (segments A) i = Some a -> nth_error (segments B) i = Some b ->
  gt a b = true ->
  (forall j, j < i -> nth_error (segments A) j = nth_error (segments B) j) ->
  runLoop A B = BreakNewer i.
Proof.
  intros Ha Hb Hab Heq.
  assert (Hbefore : forall n x y, n < i ->
            nth_error (segments A) n = Some x ->
            nth_error (segments B) n = Some y -> lt x y = true -> False).
  { intros n x y Hn Hx Hy Hxy. rewrite (Heq n Hn) in Hx.
    assert (x = y) by congruence. subst. rewrite lt_irrefl in Hxy.
    discriminate. }
  assert (Hbefore' : forall n x y, n < i ->
            nth_error (segments A) n = Some x ->
            nth_error (segments B) n = Some y -> gt x y = true -> False).
  { intros n x y Hn Hx Hy Hxy. rewrite (Heq n Hn) in Hx.
    assert (x = y) by congruence. subst. rewrite gt_irrefl in Hxy.
    discriminate. }
  pose proof (runLoop_spec A B) as S.
  destruct (runLoop A B) as [n|n|]; simpl in S.
  - destruct S as (m & x & y & -> & Hx & Hy & Hxy & Hu). simpl.
    destruct (Nat.lt_trichotomy m i) as [Hlt|[->|Hgt]]; auto.
    + exfalso. eauto.
    + destruct (Hu i a b Hgt Ha Hb). congruence.
  - destruct S as (m & x & y & -> & Hx & Hy & Hxy & Hxy' & Hu). simpl.
    destruct (Nat.lt_trichotomy m i) as [Hlt|[->|Hgt]].
    + exfalso. eauto.
    + congruence.
    + destruct (Hu i a b Hgt Ha Hb). congruence.
  - destruct (S i a b Ha Hb). congruence.
Qed.

Lemma nth_error_before {A : Type} (l : list A) (i j : nat) (a : A) :
  nth_error l i = Some a -> j < i -> exists x, nth_error l j = Some x.
Proof.
  intros Hi Hj. destruct (nth_error l j) as [x|] eqn:E; [now exists x|].
  apply nth_error_None in E.
  assert (nth_error l i = None) by (apply nth_error_None; lia).
  congruence.
Qed.

(** On the Numbers that [parseInt] returns: for dotted-numeric strings
    [A] and [B], [isNewVersion A B] is true exactly when there is a
    position, within the shorter of the two, where the parsed segment of
    [A] is greater than that of [B] and before which the parsed segments
    are equal; when all compared segments are equal, whatever the two
    lengths, it is false. *)
Lemma isNewVersion_first_difference :
  (forall A B : string,
      dottedNumeric A = true -> dottedNumeric B = true ->
      (isNewVersion A B = true <->
       exists i a b,
         nth_error (segments A) i = Some a /\
         nth_error (segments B) i = Some b /\
         gt a b = true /\
         forall j, j < i ->
           nth_error (segments A) j = nth_error (segments B) j)
      /\
      ((forall j a b, nth_error (segments A) j = Some a ->
                      nth_error (segments B) j = Some b -> a = b) ->
       isNewVersion A B = false))
  /\ isNewVersion "1.2.0" "1.2" = false
  /\ isNewVersion "1.3" "1.2.9" = true
  /\ isNewVersion "1.2" "1.3" = false
  /\ isNewVersion "2.0.0" "1.9.9" = true.
Proof.
  split; [|repeat split; reflexivity].
  intros A B HA HB. split; [split|].
  - intros H.
    destruct (isNewVersion_true A B H) as (i & a & b & _ & Ha & Hb & Hab & Hu).
    exists i, a, b. repeat (split; [assumption|]).
    intros j Hj.
    destruct (nth_error_before _ _ _ _ Ha Hj) as (x & Hx).
    destruct (nth_error_before _ _ _ _ Hb Hj) as (y & Hy).
    destruct (Hu j x y Hj Hx Hy) as [Hg Hl].
    rewrite Hx, Hy. f_equal.
    apply trichotomy; eauto using segments_numeric.
  - intros (i & a & b & Ha & Hb & Hab & Heq).
    unfold isNewVersion.
    now rewrite (first_greater_decides A B i a b Ha Hb Hab Heq).
  - intros Hall. destruct (isNewVersion A B) eqn:E; [|reflexivity].
    destruct (isNewVersion_true A B E) as (i & a & b & _ & Ha & Hb & Hab & _).
    rewrite (Hall i a b Ha Hb), gt_irrefl in Hab. discriminate.
Qed.

Lemma isNewVersion_first_difference_witness :
  isNewVersion "1.3" "1.2.9" = true <->
  exists i a b,
    nth_error (segments "1.3") i = Some a /\
    nth_error (segments "1.2.9") i = Some b /\
    gt a b = true /\
    forall j, j < i ->
      nth_error (segments "1.3") j = nth_error (segments "1.2.9") j.
Proof.
  apply (proj1 isNewVersion_first_difference "1.3" "1.2.9");
    reflexivity.
Defined.












(** C10.  [isNewVersion] is irreflexive and asymmetric on all strings:
    no version is newer than itself, and of two versions at most one is
    newer than the other. *)
Theorem isNewVersion_irreflexive_asymmetric :
  (forall V : string, isNewVersion V V = false) /\
  (forall A B : string,
      ~ (isNewVersion A B = true /\ isNewVersion B A = true)).
Proof.
  split.
  - intros V. destruct (isNewVersion V V) eqn:E; [|reflexivity].
    destruct (isNewVersion_true V V E) as (i & a & b & _ & Ha & Hb & Hab & _).
    assert (a = b) by congruence. subst.
    rewrite gt_irrefl in Hab. discriminate.
  - intros A B [HAB HBA].
    destruct (isNewVersion_true A B HAB)
      as (i & a & b & _ & Ha & Hb & Hab & Hu).
    destruct (isNewVersion_true B A HBA)
      as (i' & b' & a' & _ & Hb' & Ha' & Hba & Hu').
    destruct (Nat.lt_trichotomy i i') as [Hlt|[->|Hgt]].
    + destruct (Hu' i b a Hlt Hb Ha) as [_ Hl].
      unfold gt in Hab. congruence.
    + assert (a' = a) by congruence. assert (b' = b) by congruence. subst.
      apply gt_lt_exclusive in Hab. unfold gt in Hba. congruence.
    + destruct (Hu i' a' b' Hgt Ha' Hb') as [_ Hl].
      unfold gt in Hba. congruence.
Qed.

(* ================================================================= *)
(** * updateServiceWorker *)

(** C3 as stated fails: without the [debugSW] flag a rejected update
    check is neither logged as an error nor reported. *)
Lemma updateServiceWorker_rejected_unreported :
  ~ rejectedUpdateResolvesFalseLoggedReported
      (mkBuild false "1.0.0") (mkUpdateEnv true false)
      (set_updateServiceWorkerSet true initial).
Proof.
  unfold rejectedUpdateResolvesFalseLoggedReported. cbn.
  intros (_ & _ & H).
  repeat (destruct H as [H|H]; [discriminate H|]). exact H.
Qed.

(** What a call of [updateServiceWorker] does, in one equation. *)
Lemma updateServiceWorker_eq (cfg : build) (u : updateEnv) (s : state) :
  updateServiceWorker cfg u s =
  if updateServiceWorkerSet s then
    (Return (waiting u), s,
     [Log Info "Checking for service worker update."; Update]
     ++ (if updateRejects u && debugSW cfg
         then [Log Error "Unable to update service worker.";
               ReportException "service-worker"]
         else [])
     ++ [Log Info
           (if waiting u
            then "New content is available; please refresh. (from update)"
            else "Updated, but theres not a new worker waiting")])
  else (Return false, s, []).
Proof.
  unfold updateServiceWorker, registration_update, bind, gets, tryCatch,
    when, infoLog, errorLog, reportException, perform, ret, throw.
  destruct (updateServiceWorkerSet s), (updateRejects u), (debugSW cfg),
    (waiting u); reflexivity.
Qed.

(** C3, amended.  Before registration completes [updateServiceWorker]
    resolves to false, changes nothing and does nothing.  After
    registration: when the update check succeeds it resolves to true
    exactly when a worker is waiting; when the update check rejects, the
    error is logged and reported exactly when the [debugSW] flag is on,
    and it resolves to false when no worker is waiting. *)
Theorem updateServiceWorker_resolves
  (cfg : build) (u : updateEnv) (s : state) :
  (updateServiceWorkerSet s = false ->
     updateServiceWorker cfg u s = (Return false, s, [])) /\
  (updateServiceWorkerSet s = true -> updateRejects u = false ->
     outcome (updateServiceWorker cfg u s) = Return (waiting u)) /\
  (updateServiceWorkerSet s = true -> updateRejects u = true ->
     (In (Log Error "Unable to update service worker.")
         (trace (updateServiceWorker cfg u s)) <-> debugSW cfg = true) /\
     (In (ReportException "service-worker")
         (trace (updateServiceWorker cfg u s)) <-> debugSW cfg = true) /\
     (waiting u = false ->
        outcome (updateServiceWorker cfg u s) = Return false)).
Proof.
  rewrite updateServiceWorker_eq. split; [|split].
  - intros ->. reflexivity.
  - intros -> _. reflexivity.
  - intros -> ->.
    destruct (debugSW cfg), (waiting u); cbn; (split; [|split]);
      first
        [ intros K; try discriminate K; reflexivity
        | split; intros K;
          [ try reflexivity; exfalso; intuition discriminate
          | try discriminate K; auto 8 ] ].
Qed.

Lemma updateServiceWorker_resolves_witness :
  updateServiceWorker (mkBuild true "1.0.0") (mkUpdateEnv false true)
    initial = (Return false, initial, [])
  /\ outcome (updateServiceWorker (mkBuild true "1.0.0")
                (mkUpdateEnv false true)
                (set_updateServiceWorkerSet true initial)) = Return true
  /\ In (ReportException "service-worker")
        (trace (updateServiceWorker (mkBuild true "1.0.0")
                  (mkUpdateEnv true false)
                  (set_updateServiceWorkerSet true initial))).
Proof.
  split; [|split].
  - apply (updateServiceWorker_resolves (mkBuild true "1.0.0")
             (mkUpdateEnv false true) initial). reflexivity.
  - apply (updateServiceWorker_resolves (mkBuild true "1.0.0")
             (mkUpdateEnv false true)
             (set_updateServiceWorkerSet true initial)); reflexivity.
  - apply (updateServiceWorker_resolves (mkBuild true "1.0.0")
             (mkUpdateEnv true false)
             (set_updateServiceWorkerSet true initial)); reflexivity.
Defined.

(* ================================================================= *)
(** * reloadDIM *)





(* ================================================================= *)
(** * The event loop *)

Lemma count_app (p : effect -> bool) (t1 t2 : list effect) :
  count p (t1 ++ t2) = count p t1 + count p t2.
Proof. unfold count. now rewrite filter_app, length_app. Qed.

Lemma run_cons (cfg : build) (e : event) (es : list event) (s : state) :
  trace (run cfg (e :: es) s)
  = trace (handle cfg e s) ++ trace (run cfg es (after (handle cfg e s)))
  /\ after (run cfg (e :: es) s) = after (run cfg es (after (handle cfg e s)))
  /\ outcome (run cfg (e :: es) s)
     = outcome (run cfg es (after (handle cfg e s))).
Proof.
  cbn [run]. unfold bind, tryCatch, ret, trace, after, outcome.
  destruct (handle cfg e s) as [[[a|x] s1] t1]; cbn;
    destruct (run cfg es s1) as [[r2 s2] t2]; cbn;
    rewrite ?app_nil_r; auto.
Qed.

Lemma run_never_throws (cfg : build) (es : list event) (s : state) :
  outcome (run cfg es s) = Return tt.
Proof.
  revert s. induction es as [|e es IH]; intros s; [reflexivity|].
  destruct (run_cons cfg e es s) as (_ & _ & ->). apply IH.
Qed.

(* ================================================================= *)
(** * The 'controllerchange' listeners *)

(** One reload for each listener whose guard is still down, and all
    guards are up afterwards. *)
Lemma dispatchControllerChange_eq (listeners : list bool) (s : state) :
  dispatchControllerChange listeners s
  = (Return (spent listeners), s,
     List.map (fun _ => Reload) (filter negb listeners)).
Proof.
  induction listeners as [|g ls IH]; [reflexivity|].
  cbn [dispatchControllerChange]. unfold bind at 1.
  unfold onControllerChange.
  destruct g; cbn; unfold bind; rewrite IH; cbn; rewrite ?app_nil_r;
    reflexivity.
Qed.

Lemma controllerChange_eq (s : state) :
  controllerChange s
  = (Return tt, set_controllerchange (spent (controllerchange s)) s,
     List.map (fun _ => Reload) (filter negb (controllerchange s))).
Proof.
  unfold controllerChange, bind, gets, modify.
  rewrite dispatchControllerChange_eq. now rewrite !app_nil_r.
Qed.

Lemma filter_negb_spent (ls : list bool) : filter negb (spent ls) = [].
Proof. induction ls; simpl; auto. Qed.

Lemma count_reloads (ls : list bool) :
  count isReload (List.map (fun _ => Reload) ls) = List.length ls.
Proof. unfold count. induction ls; simpl; auto. Qed.

(** Repeated 'controllerchange' events reload once for each listener
    whose guard was down, whatever their number. *)
Lemma controllerChanges_reload (cfg : build) (n : nat) (s : state) :
  count isReload (trace (run cfg (repeat ControllerChange n) s))
  = match n with
    | 0 => 0
    | S _ => List.length (filter negb (controllerchange s))
    end.
Proof.
  revert s. induction n as [|n IH]; intros s; [reflexivity|].
  cbn [repeat]. destruct (run_cons cfg ControllerChange
                            (repeat ControllerChange n) s) as (-> & _ & _).
  rewrite count_app, IH. cbn [handle]. rewrite controllerChange_eq.
  unfold trace, after. cbn [fst snd]. rewrite count_reloads.
  destruct n; [lia|].
  destruct s; cbn. rewrite filter_negb_spent. cbn. lia.
Qed.



Lemma all_spent_filter (ls : list bool) :
  Forall (fun g => g = true) ls -> filter negb ls = [].
Proof.
  induction 1 as [|g ls -> _ IH]; simpl; auto.
Qed.



(** C9 as stated fails: without the [debugSW] flag a first install
    emits no informational log, it emits nothing. *)
Lemma first_install_logs_nothing_without_flag :
  ~ firstInstallLogsOnly (mkBuild false "1.0.0") 1
      (after (run (mkBuild false "1.0.0")
                [Load true true; UpdateFound 1] initial)).
Proof.
  unfold firstInstallLogsOnly. cbn.
  intros (_ & _ & _ & msg & H). discriminate H.
Qed.

(** C9, amended.  First install: a worker watched since 'updatefound'
    reaches 'installed' while the page has no controller.  The page is
    not reloaded, [serviceWorkerUpdated$] stays false, no
    'controllerchange' listener is added, nothing in the state changes,
    and the only thing emitted is one informational log, written when the
    [debugSW] flag is on; with the flag off nothing is emitted. *)
Theorem first_install_only_logs (cfg : build) (s : state) (w : nat) :
  handlerOf w s = Some WatchInstall ->
  serviceWorkerUpdated s = false ->
  count isReload (trace (handle cfg (StateChange w Installed false) s)) = 0 /\
  serviceWorkerUpdated (after (handle cfg (StateChange w Installed false) s))
  = false /\
  controllerchange (after (handle cfg (StateChange w Installed false) s))
  = controllerchange s /\
  after (handle cfg (StateChange w Installed false) s) = s /\
  forallb isInfoLog (trace (handle cfg (StateChange w Installed false) s))
  = true /\
  trace (handle cfg (StateChange w Installed false) s)
  = if debugSW cfg then [Log Info "Content is cached for offline use."]
    else [].
Proof.
  intros Hh Hu. cbn [handle]. unfold bind, gets. rewrite Hh.
  unfold watchInstall, when, infoLog, perform, ret.
  destruct (debugSW cfg); cbn; auto 7.
Qed.

Lemma first_install_only_logs_witness :
  count isReload
    (trace (handle (mkBuild true "1.0.0") (StateChange 1 Installed false)
              (after (run (mkBuild true "1.0.0")
                        [Load true true; UpdateFound 1;
                         StateChange 1 Installing false] initial)))) = 0.
Proof.
  apply (first_install_only_logs (mkBuild true "1.0.0")
           (after (run (mkBuild true "1.0.0")
                     [Load true true; UpdateFound 1;
                      StateChange 1 Installing false] initial)) 1);
    reflexivity.
Defined.

(* ================================================================= *)
(** * Observables *)

Lemma bind_Return {A B : Type} (m : M A) (k : A -> M B)
  (s s1 : state) (a : A) (t1 : list effect) :
  m s = (Return a, s1, t1) ->
  bind m k s
  = (outcome (k a s1), after (k a s1), t1 ++ trace (k a s1)).
Proof.
  intros E. unfold bind. rewrite E.
  destruct (k a s1) as [[r s2] t2]. reflexivity.
Qed.

Lemma forEach_one {A B : Type} (op : A -> M (list B)) (x : A)
  (s s1 : state) (ys : list B) (t1 : list effect) :
  op x s = (Return ys, s1, t1) ->
  forEach op [x] s = (Return ys, s1, t1).
Proof.
  intros E. cbn [forEach]. rewrite (bind_Return _ _ _ _ _ _ E).
  cbn. now rewrite !app_nil_r.
Qed.

Lemma pipe_one {A B : Type} (src : M (list A)) (op : A -> M (list B))
  (x : A) (s s1 s2 : state) (ys : list B) (t1 t2 : list effect) :
  src s = (Return [x], s1, t1) -> op x s1 = (Return ys, s2, t2) ->
  pipe src op s = (Return ys, s2, t1 ++ t2).
Proof.
  intros E1 E2. unfold pipe. rewrite (bind_Return _ _ _ _ _ _ E1).
  now rewrite (forEach_one _ _ _ _ _ _ E2).
Qed.

Lemma pipe_none {A B : Type} (src : M (list A)) (op : A -> M (list B))
  (s s1 : state) (t1 : list effect) :
  src s = (Return [], s1, t1) ->
  pipe src op s = (Return [], s1, t1).
Proof.
  intros E. unfold pipe. rewrite (bind_Return _ _ _ _ _ _ E).
  cbn. now rewrite app_nil_r.
Qed.

(* ================================================================= *)
(** * The poll: serverVersionChanged$ *)

Lemma fetch_swallowing (r : fetchResult) (s : state) :
  catchError (from (getServerVersion r)) (fun _ => empty) s
  = (Return (served r), s,
     List.map (fun _ => Log Info "Got server version") (served r)).
Proof.
  destruct r as [|[|] [|[[|c v]|]|]]; reflexivity.
Qed.

Lemma isNewVersionM_eq (version currentVersion : string) (s : state) :
  isNewVersionM version currentVersion s
  = (Return (isNewVersion version currentVersion), s,
     advisory version currentVersion).
Proof.
  unfold isNewVersionM, isNewVersion, advisory.
  destruct (runLoop version currentVersion); reflexivity.
Qed.

Lemma distinctUntilChanged_compared (b : bool) (s : state) :
  distinctUntilChanged compared set_compared b s
  = match compared s with
    | Some b' =>
        if Bool.eqb b' b then (Return [], s, [])
        else (Return [b], set_compared (Some b) s, [])
    | None => (Return [b], set_compared (Some b) s, [])
    end.
Proof.
  unfold distinctUntilChanged, bind, gets, modify, ret.
  destruct (compared s) as [b'|]; [destruct (Bool.eqb b' b)|]; reflexivity.
Qed.

Lemma updateServiceWorker_shape (cfg : build) (u : updateEnv) (s : state) :
  updateServiceWorker cfg u s
  = (Return (updateServiceWorkerSet s && waiting u), s,
     trace (updateServiceWorker cfg u s)) /\
  count isUpdate (trace (updateServiceWorker cfg u s))
  = (if updateServiceWorkerSet s then 1 else 0).
Proof.
  rewrite updateServiceWorker_eq.
  destruct (updateServiceWorkerSet s), (updateRejects u), (debugSW cfg),
    (waiting u); split; reflexivity.
Qed.

Lemma resolve_eq (cfg : build) (u : updateEnv) (b : bool) (s : state) :
  switchMap (fun needsUpdate : bool =>
               if needsUpdate then from (updateServiceWorker cfg u)
               else of' false) b s
  = (Return [fst (resolved cfg u b s)], s, snd (resolved cfg u b s)).
Proof.
  unfold switchMap, resolved, from, of'. destruct b; [|reflexivity].
  destruct (updateServiceWorker_shape cfg u s) as [E _].
  rewrite (bind_Return _ _ _ _ _ _ E), E. cbn. now rewrite app_nil_r.
Qed.

(** [serverVersionChanged$] on a tick whose poll succeeds: nothing when
    the comparison is what it was, else the resolved value. *)
Lemma serverVersionChanged_S_served
  (cfg : build) (c : ascii) (v : string) (u : updateEnv) (s : state) :
  let b := isNewVersion (String c v) (DIM_VERSION cfg) in
  let logs := Log Info "Got server version"
              :: advisory (String c v) (DIM_VERSION cfg) in
  let s1 := set_compared (Some b) s in
  serverVersionChanged_S cfg
    (mkTick (Response true (Json (Some (String c v)))) u) s
  = if match compared s with Some b' => Bool.eqb b' b | None => false end
    then (Return [], s, logs)
    else (Return [fst (resolved cfg u b s1)],
          set_serverVersionChanged (Some (fst (resolved cfg u b s1))) s1,
          logs ++ snd (resolved cfg u b s1)).
Proof.
  cbv zeta. unfold serverVersionChanged_S. cbn [fetched update].
  set (b := isNewVersion (String c v) (DIM_VERSION cfg)).
  set (logs := Log Info "Got server version"
               :: advisory (String c v) (DIM_VERSION cfg)).
  assert (E0 : (of' tt
                |> switchMap (fun _ : unit =>
                     catchError
                       (from (getServerVersion
                                (Response true (Json (Some (String c v))))))
                       (fun _ => empty))) s
               = (Return [IsString (String c v)], s,
                  [Log Info "Got server version"])).
  { apply (pipe_one _ _ tt s s s _ [] [Log Info "Got server version"]).
    - reflexivity.
    - exact (fetch_swallowing _ s). }
  assert (E1 : (of' tt
                |> switchMap (fun _ : unit =>
                     catchError
                       (from (getServerVersion
                                (Response true (Json (Some (String c v))))))
                       (fun _ => empty))
                |> map (fun version =>
                          isNewVersionOf version (DIM_VERSION cfg))) s
               = (Return [b], s, logs)).
  { apply (pipe_one _ _ _ s s s _ [Log Info "Got server version"]
             (advisory (String c v) (DIM_VERSION cfg)) E0).
    unfold map, isNewVersionOf.
    erewrite bind_Return by apply isNewVersionM_eq.
    cbn. now rewrite app_nil_r. }
  pose proof (distinctUntilChanged_compared b s) as E2.
  pose proof (resolve_eq cfg u b (set_compared (Some b) s)) as E3.
  set (v' := fst (resolved cfg u b (set_compared (Some b) s))) in *.
  set (t' := snd (resolved cfg u b (set_compared (Some b) s))) in *.
  assert (E4 : shareReplay v' (set_compared (Some b) s)
               = (Return [v'],
                  set_serverVersionChanged (Some v') (set_compared (Some b) s),
                  [])) by reflexivity.
  destruct (compared s) as [b'|] eqn:C; [destruct (Bool.eqb b' b) eqn:Q|].
  - apply pipe_none. apply pipe_none.
    rewrite <- (app_nil_r logs). apply (pipe_one _ _ _ _ _ _ _ _ _ E1 E2).
  - rewrite <- (app_nil_r (logs ++ t')).
    apply (pipe_one _ _ _ _ _ _ _ _ _
             (pipe_one _ _ _ _ _ _ _ _ _
                (eq_trans (pipe_one _ _ _ _ _ _ _ _ _ E1 E2)
                   (f_equal _ (app_nil_r logs))) E3) E4).
  - rewrite <- (app_nil_r (logs ++ t')).
    apply (pipe_one _ _ _ _ _ _ _ _ _
             (pipe_one _ _ _ _ _ _ _ _ _
                (eq_trans (pipe_one _ _ _ _ _ _ _ _ _ E1 E2)
                   (f_equal _ (app_nil_r logs))) E3) E4).
Qed.

Lemma observe_dimNeedsUpdate (s : state) :
  observe dimNeedsUpdate_S s
  = match serverVersionChanged s with
    | None => (Return tt, s, [])
    | Some x =>
        let v := x || serviceWorkerUpdated s in
        if match emitted s with Some e => Bool.eqb e v | None => false end
        then (Return tt, set_dimNeedsUpdate v s, [])
        else (Return tt, set_emitted (Some v) (set_dimNeedsUpdate v s),
              [Emit v])
    end.
Proof.
  destruct s as [us su d ouf osc cc cmp [[|]|] [[|]|] pol]; destruct su;
    reflexivity.
Qed.

Lemma emissions_app (t1 t2 : list effect) :
  emissions (t1 ++ t2) = emissions t1 ++ emissions t2.
Proof.
  induction t1 as [|e t1 IH]; [reflexivity|].
  destruct e; simpl; rewrite IH; reflexivity.
Qed.

(** What a delivery to [dimNeedsUpdate$] leaves as it was, and what it
    may deliver. *)
Lemma observe_dimNeedsUpdate_frame (s : state) :
  let r := observe dimNeedsUpdate_S s in
  outcome r = Return tt /\
  polling (after r) = polling s /\
  updateServiceWorkerSet (after r) = updateServiceWorkerSet s /\
  serviceWorkerUpdated (after r) = serviceWorkerUpdated s /\
  compared (after r) = compared s /\
  count isUpdate (trace r) = 0 /\
  (serviceWorkerUpdated s = true -> Forall (eq true) (emissions (trace r))).
Proof.
  cbv zeta. rewrite observe_dimNeedsUpdate.
  destruct s as [us su d ouf osc cc cmp [[|]|] [[|]|] pol]; destruct su;
    cbn; repeat split; auto; try discriminate.
Qed.

Lemma advisory_logs (version currentVersion : string) :
  count isUpdate (advisory version currentVersion) = 0 /\
  emissions (advisory version currentVersion) = [].
Proof.
  unfold advisory.
  destruct (runLoop version currentVersion); split; reflexivity.
Qed.

Lemma resolved_spec (cfg : build) (u : updateEnv) (b : bool) (s : state) :
  count isUpdate (snd (resolved cfg u b s))
  = (if b && updateServiceWorkerSet s then 1 else 0) /\
  emissions (snd (resolved cfg u b s)) = [].
Proof.
  unfold resolved. destruct b; [|split; reflexivity].
  rewrite updateServiceWorker_eq.
  destruct (updateServiceWorkerSet s), (updateRejects u), (debugSW cfg),
    (waiting u); split; reflexivity.
Qed.

Lemma bind_gets {A B : Type} (f : state -> A) (k : A -> M B) (s : state) :
  bind (gets f) k s = k (f s) s.
Proof.
  unfold bind, gets. destruct (k (f s) s) as [[r s1] t1]. reflexivity.
Qed.

Lemma deliver_one (x : bool) (s : state) :
  (forEach (fun _ : bool => observe dimNeedsUpdate_S ;; ret (@nil unit)) [x] ;;
   ret tt) s
  = (Return tt, after (observe dimNeedsUpdate_S s),
     trace (observe dimNeedsUpdate_S s)).
Proof.
  destruct (observe_dimNeedsUpdate_frame s) as (O & _).
  destruct (observe dimNeedsUpdate_S s) as [[r s1] t1] eqn:E.
  unfold outcome in O. cbn in O. subst r.
  cbn [forEach]. unfold bind. rewrite E. cbn. now rewrite !app_nil_r.
Qed.

(** A tick whose poll succeeds. *)
Lemma onTick_served
  (cfg : build) (c : ascii) (v : string) (u : updateEnv) (s : state) :
  polling s = true ->
  let b := isNewVersion (String c v) (DIM_VERSION cfg) in
  let r := onTick cfg (mkTick (Response true (Json (Some (String c v)))) u) s in
  outcome r = Return tt /\
  polling (after r) = true /\
  updateServiceWorkerSet (after r) = updateServiceWorkerSet s /\
  serviceWorkerUpdated (after r) = serviceWorkerUpdated s /\
  compared (after r) = Some b /\
  count isUpdate (trace r)
  = (if updateServiceWorkerSet s then changesToTrue (compared s) [b] else 0) /\
  (serviceWorkerUpdated s = true -> Forall (eq true) (emissions (trace r))).
Proof.
  intros Hp. cbv zeta. unfold onTick. rewrite bind_gets, Hp.
  cbn [when]. unfold tryCatch.
  pose proof (serverVersionChanged_S_served cfg c v u s) as E.
  cbv zeta in E.
  set (b := isNewVersion (String c v) (DIM_VERSION cfg)) in *.
  destruct (advisory_logs (String c v) (DIM_VERSION cfg)) as [A1 A2].
  destruct (resolved_spec cfg u b (set_compared (Some b) s)) as [R1 R2].
  set (v' := fst (resolved cfg u b (set_compared (Some b) s))) in *.
  set (t' := snd (resolved cfg u b (set_compared (Some b) s))) in *.
  destruct (match compared s with
            | Some b' => Bool.eqb b' b
            | None => false
            end) eqn:Q.
  - rewrite (bind_Return _ _ _ _ _ _ E). cbn.
    destruct (compared s) as [b'|] eqn:C; [|discriminate].
    apply Bool.eqb_prop in Q. subst b'.
    rewrite !app_nil_r, A2.
    unfold count in *. cbn. rewrite A1.
    repeat split; auto.
    destruct (updateServiceWorkerSet s), b; reflexivity.
  - rewrite (bind_Return _ _ _ _ _ _ E), deliver_one.
    set (s2 := set_serverVersionChanged (Some v') (set_compared (Some b) s)).
    destruct (observe_dimNeedsUpdate_frame s2)
      as (O1 & O2 & O3 & O4 & O5 & O6 & O7).
    unfold outcome, after, trace in *. cbn [fst snd] in *.
    rewrite O2, O3, O4, O5.
    change (Log Info "Got server version"
              :: advisory (String c v) (DIM_VERSION cfg))
      with ([Log Info "Got server version"]
              ++ advisory (String c v) (DIM_VERSION cfg)).
    rewrite !count_app, !emissions_app, A1, A2, R1, R2, O6.
    destruct s as [us su d ouf osc cc cmp svc em pol]. cbn in *.
    repeat split; auto.
    destruct us, b, cmp as [[|]|]; cbn in *; try reflexivity;
      discriminate.
Qed.

Lemma changesToTrue_cons (prev : option bool) (b : bool) (bs : list bool) :
  changesToTrue prev (b :: bs)
  = changesToTrue prev [b] + changesToTrue (Some b) bs.
Proof. cbn. lia. Qed.

(** With the worker registered, [registration.update()] is called once
    for each change of the comparison result to true. *)
Lemma update_attempts (cfg : build) (polls : list (string * updateEnv))
  (s : state) :
  polling s = true -> updateServiceWorkerSet s = true ->
  Forall (fun p => fst p <> "") polls ->
  count isUpdate (trace (run cfg (List.map polled polls) s))
  = changesToTrue (compared s)
      (List.map (fun p => isNewVersion (fst p) (DIM_VERSION cfg)) polls).
Proof.
  intros Hp Hu Hne. revert s Hp Hu.
  induction Hne as [|[v u] polls Hv _ IH]; intros s Hp Hu; [reflexivity|].
  cbn [List.map]. destruct (run_cons cfg (polled (v, u))
                              (List.map polled polls) s) as (-> & _ & _).
  cbn [fst] in *. destruct v as [|c v]; [contradiction|].
  unfold polled. cbn [handle fst snd].
  pose proof (onTick_served cfg c v u s Hp) as K. cbv zeta in K.
  destruct K as (_ & Hp' & Hu' & _ & Hc & Hn & _).
  rewrite count_app, Hn, Hu. rewrite IH; [|exact Hp'|exact (eq_trans Hu' Hu)].
  rewrite Hc. cbn [changesToTrue]. lia.
Qed.

Lemma onTick_failed (cfg : build) (t : tick) (s : state) :
  served (fetched t) = [] -> onTick cfg t s = (Return tt, s, []).
Proof.
  intros H. unfold onTick. rewrite bind_gets.
  destruct (polling s); [|reflexivity].
  unfold when, serverVersionChanged_S.
  destruct t as [r u]. cbn [fetched] in *.
  destruct r as [|[|] [|[[|c v]|]|]]; try discriminate H; reflexivity.
Qed.

(** A tick whose poll brings a version that is no string: the
    comparison throws, the observers get the error and the subscriptions
    end; if they have ended already, nothing happens. *)
Lemma onTick_not_a_string (cfg : build) (u : updateEnv) (s : state) :
  onTick cfg (mkTick (Response true JsonOther) u) s
  = if polling s
    then (Return tt, set_polling false s,
          [Log Info "Got server version"; EmitError NotAFunction])
    else (Return tt, s, []).
Proof.
  unfold onTick. rewrite bind_gets. destruct (polling s); reflexivity.
Qed.

Lemma onTick_ended (cfg : build) (t : tick) (s : state) :
  polling s = false -> onTick cfg t s = (Return tt, s, []).
Proof.
  intros H. unfold onTick. now rewrite bind_gets, H.
Qed.

(** The three kinds of tick. *)
Lemma tick_cases (t : tick) :
  served (fetched t) = [] \/
  (exists c v u, t = mkTick (Response true (Json (Some (String c v)))) u) \/
  (exists u, t = mkTick (Response true JsonOther) u).
Proof.
  destruct t as [[|[|] [|[[|c v]|]|]] u]; try (left; reflexivity).
  - right. left. now exists c, v, u.
  - right. right. now exists u.
Qed.

(** C7 as stated fails: a failed poll logs nothing. *)
Lemma poll_failure_not_logged :
  pollFailure FetchRejected /\
  ~ pollFailureSwallowedLogged (mkBuild true "1.0.0")
      (mkTick FetchRejected (mkUpdateEnv false false)) initial.
Proof.
  split; [constructor|]. intros (_ & (l & msg & H) & _). exact H.
Qed.

(** C7, amended.  On a tick whose poll fails (network failure, response
    not OK, unreadable body, version missing) nothing is thrown, nothing
    is logged, nothing is delivered to the observers, no update is
    attempted and the state is as before, the timer included: the events
    that follow are handled as if the tick had not been. *)
Theorem poll_failure_swallowed
  (cfg : build) (t : tick) (s : state) (later : list event) :
  pollFailure (fetched t) ->
  onTick cfg t s = (Return tt, s, []) /\
  polling (after (onTick cfg t s)) = polling s /\
  run cfg (Tick t :: later) s = run cfg later s.
Proof.
  intros H.
  assert (E : onTick cfg t s = (Return tt, s, [])).
  { unfold onTick, bind, gets, when, serverVersionChanged_S.
    destruct (polling s); [|reflexivity].
    destruct t as [r u]. cbn [fetched] in *.
    destruct H; try destruct body; reflexivity. }
  split; [exact E|]. split; [now rewrite E|].
  cbn [run handle]. unfold bind, tryCatch. rewrite E.
  destruct (run cfg later s) as [[r s1] t1]. reflexivity.
Qed.

Lemma poll_failure_swallowed_witness :
  run (mkBuild true "1.0.0")
    [Tick (mkTick (Response false Unreadable) (mkUpdateEnv false false));
     Tick (mkTick (Response true (Json (Some "1.1.0")))
             (mkUpdateEnv false false))] initial
  = run (mkBuild true "1.0.0")
      [Tick (mkTick (Response true (Json (Some "1.1.0")))
               (mkUpdateEnv false false))] initial.
Proof.
  apply (poll_failure_swallowed (mkBuild true "1.0.0")
           (mkTick (Response false Unreadable) (mkUpdateEnv false false))
           initial).
  constructor.
Defined.

(** A comparison that turns true and stays true changes to true once. *)
Lemma changesToTrue_monotone (n m : nat) :
  changesToTrue None (repeat false n ++ repeat true (S m)) = 1.
Proof.
  assert (T : forall k, changesToTrue (Some true) (repeat true k) = 0)
    by (induction k; cbn; auto).
  assert (F : forall prev, prev <> Some true ->
            changesToTrue prev (repeat false n ++ repeat true (S m)) = 1).
  { induction n as [|n IH]; intros prev Hprev.
    - cbn [repeat app]. rewrite changesToTrue_cons, T.
      destruct prev as [[|]|]; cbn; congruence.
    - cbn [repeat app]. rewrite changesToTrue_cons, IH by discriminate.
      destruct prev as [[|]|]; cbn; congruence. }
  apply F. discriminate.
Qed.

(** C1, the code at the comparison results [false, true, true, false, true]: the
    server answers 1.0.0, 1.1.0, 1.1.0, 1.0.0, 1.1.0 to a page built as
    1.0.0.  [registration.update()] is called twice, once for each change
    of the comparison to true, and not once; with a worker waiting the
    stream turns true twice, as seen by the observers. *)
Theorem update_attempted_on_each_change_to_true :
  List.map (fun v => isNewVersion v "1.0.0")
    ["1.0.0"; "1.1.0"; "1.1.0"; "1.0.0"; "1.1.0"]
  = [false; true; true; false; true] /\
  count isUpdate
    (trace (run (mkBuild false "1.0.0")
              [Load true true;
               serves "1.0.0" false; serves "1.1.0" false;
               serves "1.1.0" false; serves "1.0.0" false;
               serves "1.1.0" false] initial)) = 2 /\
  emissions
    (trace (run (mkBuild false "1.0.0")
              [Load true true;
               serves "1.0.0" true; serves "1.1.0" true;
               serves "1.1.0" true; serves "1.0.0" true;
               serves "1.1.0" true] initial))
  = [false; true; false; true].
Proof. repeat split; reflexivity. Qed.

(* ================================================================= *)
(** * The aggregate: dimNeedsUpdate$ *)

Lemma emissions_reloads (ls : list bool) :
  emissions (List.map (fun _ => Reload) ls) = [].
Proof. induction ls; simpl; auto. Qed.

Ltac unchanged := cbn; repeat split; intros; auto.

Lemma serviceWorkerUpdated_next_keeps (s : state) :
  outcome (serviceWorkerUpdated_next true s) = Return tt /\
  polling (after (serviceWorkerUpdated_next true s)) = polling s /\
  serviceWorkerUpdated (after (serviceWorkerUpdated_next true s)) = true /\
  Forall (eq true) (emissions (trace (serviceWorkerUpdated_next true s))).
Proof.
  destruct s as [us su d ouf osc cc cmp [[|]|] [[|]|] [|]]; destruct su;
    cbn; repeat split; repeat constructor.
Qed.

(** The subscriptions end on a tick that brings a version that is no
    string and on no other event; no event puts [serviceWorkerUpdated$]
    back to false, and once it holds true only true is delivered. *)
Lemma handle_keeps (cfg : build) (e : event) (s : state) :
  polling (after (handle cfg e s)) = polling s && negb (endsPoll e) /\
  (serviceWorkerUpdated s = true ->
     serviceWorkerUpdated (after (handle cfg e s)) = true /\
     Forall (eq true) (emissions (trace (handle cfg e s)))).
Proof.
  destruct e as [supported registers|w|w st controller| |t|env];
    cbn [handle endsPoll negb]; rewrite ?Bool.andb_true_r.
  - destruct s as [us su d ouf osc cc cmp svc em pol].
    destruct supported, registers; unchanged.
  - rewrite bind_gets.
    destruct s as [us su d ouf osc cc cmp svc em pol].
    unfold onUpdateFound. destruct ouf, (debugSW cfg); unchanged.
  - rewrite bind_gets. destruct (handlerOf w s) as [[|]|].
    + unfold watchInstall.
      destruct st, controller; try (destruct (debugSW cfg); unchanged; fail).
      destruct (serviceWorkerUpdated_next_keeps s) as (O1 & O2 & O3 & O4).
      destruct (serviceWorkerUpdated_next true s) as [[r s1] t1] eqn:E.
      unfold outcome, after, trace in *. cbn [fst snd] in *. subst r.
      unfold addControllerChangeListener, infoLog, perform, modify, bind.
      rewrite E. cbn. rewrite app_nil_r.
      destruct s1 as [us su d ouf osc cc cmp svc em pol]; cbn in *.
      auto.
    + destruct st; unchanged.
    + unchanged.
  - rewrite controllerChange_eq. unfold after, trace. cbn [fst snd].
    rewrite emissions_reloads.
    destruct s as [us su d ouf osc cc cmp svc em pol]; unchanged.
  - destruct (tick_cases t) as [V|[(c & v & u & ->)|(u & ->)]].
    + rewrite (onTick_failed cfg t s V).
      assert (N : match fetched t with
                  | Response true JsonOther => true
                  | _ => false
                  end = false).
      { destruct t as [[|[|] [|[[|c v]|]|]] u]; try reflexivity.
        discriminate V. }
      rewrite N. cbn. rewrite Bool.andb_true_r. auto.
    + cbn [fetched negb]. rewrite Bool.andb_true_r.
      destruct (polling s) eqn:Hp.
      * pose proof (onTick_served cfg c v u s Hp) as K. cbv zeta in K.
        destruct K as (_ & Hp' & _ & Hs & _ & _ & He).
        split; [auto|]. intros H. rewrite Hs. auto.
      * rewrite (onTick_ended cfg _ s Hp). cbn. auto.
    + rewrite onTick_not_a_string. cbn [fetched negb].
      rewrite Bool.andb_false_r.
      destruct s as [us su d ouf osc cc cmp svc em pol]. cbn.
      destruct pol; cbn; auto.
  - unfold reloadDIM, reloadDIM_try, await_getRegistration, postMessage.
    destruct s as [us su d ouf osc cc cmp svc em pol].
    destruct (getRegistration env) as [| |[w|] [i|]];
      try destruct (postMessageThrows env); unchanged.
Qed.

Lemma run_keeps (cfg : build) (es : list event) (s : state) :
  polling (after (run cfg es s)) = polling s && negb (existsb endsPoll es) /\
  (serviceWorkerUpdated s = true ->
     serviceWorkerUpdated (after (run cfg es s)) = true /\
     Forall (eq true) (emissions (trace (run cfg es s)))).
Proof.
  revert s. induction es as [|e es IH]; intros s.
  - cbn. rewrite Bool.andb_true_r. auto.
  - destruct (run_cons cfg e es s) as (-> & -> & _).
    destruct (handle_keeps cfg e s) as [K1 K2].
    destruct (IH (after (handle cfg e s))) as [I1 I2].
    split.
    + rewrite I1, K1. cbn [existsb].
      destruct (polling s), (endsPoll e), (existsb endsPoll es); reflexivity.
    + intros H. destruct (K2 H) as [K3 K4].
      destruct (I2 K3) as [I3 I4]. split; [auto|].
      rewrite emissions_app. apply Forall_app. auto.
Qed.

(** C2, the code at a server that answers 2.0.0 and then 1.0.0 to a page built as
    1.0.0, a worker waiting: [dimNeedsUpdate$] delivers true and then
    false, and [dimNeedsUpdate] ends false. *)
Theorem needsUpdate_reverts_to_false :
  emissions
    (trace (run (mkBuild false "1.0.0")
              [Load true true; serves "2.0.0" true; serves "1.0.0" true]
              initial)) = [true; false] /\
  dimNeedsUpdate
    (after (run (mkBuild false "1.0.0")
              [Load true true; serves "2.0.0" true] initial)) = true /\
  dimNeedsUpdate
    (after (run (mkBuild false "1.0.0")
              [Load true true; serves "2.0.0" true; serves "1.0.0" true]
              initial)) = false.
Proof. repeat split; reflexivity. Qed.

(* ================================================================= *)
(** * Further properties of isNewVersion *)

Lemma versionLoop_older_newer (parts currentVersionParts : list string)
  (k : nat) :
  olderAvailable (versionLoop k parts currentVersionParts)
  = newerAvailable (versionLoop k currentVersionParts parts).
Proof.
  revert currentVersionParts k.
  induction parts as [|p ps IH]; intros [|c cs] k; try reflexivity.
  cbn [versionLoop]. unfold gt.
  destruct (lt (parseInt c) (parseInt p)) eqn:Hg.
  - rewrite (lt_asym _ _ Hg). reflexivity.
  - destruct (lt (parseInt p) (parseInt c)); [reflexivity|apply IH].
Qed.

(** X1.  The advisory log of [isNewVersion] follows the comparison both
    ways: the warning that the server is older is written exactly when
    the current version is newer than the server's, the notice of a
    newer version exactly when the function returns true, and never
    both; otherwise nothing is logged. *)
Theorem isNewVersion_log_follows_comparison
  (version currentVersion : string) (s : state) :
  trace (isNewVersionM version currentVersion s)
  = if isNewVersion currentVersion version then
      [Log Warn ("Server version " ++ version
                   ++ " is older than current version "
                   ++ currentVersion)%string]
    else if isNewVersion version currentVersion then
      [Log Info "Found newer version on server, attempting to update"]
    else [].
Proof.
  rewrite isNewVersionM_eq. unfold trace, advisory. cbn [snd].
  unfold isNewVersion at 1, runLoop at 3.
  now rewrite <- versionLoop_older_newer.
Qed.

(** The loop reads the strings through [parseInt] only. *)
Lemma versionLoop_parsed (ps ps' cs cs' : list string) (k : nat) :
  List.map parseInt ps = List.map parseInt ps' ->
  List.map parseInt cs = List.map parseInt cs' ->
  versionLoop k ps cs = versionLoop k ps' cs'.
Proof.
  revert ps' cs cs' k.
  induction ps as [|p ps IH]; intros [|p' ps'] [|c cs] [|c' cs'] k Hp Hc;
    try discriminate; try reflexivity.
  cbn in Hp, Hc. injection Hp as Hp0 Hp. injection Hc as Hc0 Hc.
  cbn [versionLoop]. rewrite Hp0, Hc0.
  destruct (gt (parseInt p') (parseInt c')); [reflexivity|].
  destruct (lt (parseInt p') (parseInt c')); [reflexivity|].
  now apply IH.
Qed.

(** The loop stops at the end of the shorter array. *)
Lemma versionLoop_firstn (ps cs : list string) (k : nat) :
  versionLoop k ps cs
  = versionLoop k (firstn (List.length cs) ps) (firstn (List.length ps) cs).
Proof.
  revert cs k. induction ps as [|p ps IH]; intros [|c cs] k; try reflexivity.
  cbn [List.length firstn versionLoop].
  destruct (gt (parseInt p) (parseInt c)); [reflexivity|].
  destruct (lt (parseInt p) (parseInt c)); [reflexivity|].
  apply IH.
Qed.

Lemma firstn_min {A : Type} (n : nat) (l : list A) :
  firstn n l = firstn (Nat.min n (List.length l)) l.
Proof.
  destruct (Nat.le_gt_cases n (List.length l)) as [H|H].
  - now rewrite Nat.min_l.
  - rewrite Nat.min_r by lia. rewrite firstn_all.
    apply firstn_all2. lia.
Qed.

(** X2.  [isNewVersion] depends on its arguments only through the parsed
    segments up to the length of the shorter one: two candidate versions
    whose parsed segments agree over the length of the current version
    compare alike with it, on either side. *)
Theorem isNewVersion_reads_common_prefix (A A' B : string) :
  firstn (List.length (segments B)) (segments A)
  = firstn (List.length (segments B)) (segments A') ->
  isNewVersion A B = isNewVersion A' B /\
  isNewVersion B A = isNewVersion B A'.
Proof.
  unfold segments. rewrite !length_map, !firstn_map. intros H.
  assert (L : Nat.min (List.length (split A)) (List.length (split B))
              = Nat.min (List.length (split A')) (List.length (split B))).
  { apply (f_equal (@List.length number)) in H.
    rewrite !length_map, !length_firstn in H. lia. }
  assert (E : firstn (List.length (split A)) (split B)
              = firstn (List.length (split A')) (split B)).
  { rewrite (firstn_min (List.length (split A))),
      (firstn_min (List.length (split A'))). now rewrite L. }
  unfold isNewVersion, runLoop. split.
  - rewrite (versionLoop_firstn (split A)), (versionLoop_firstn (split A')).
    rewrite E. f_equal. apply versionLoop_parsed; auto.
  - rewrite (versionLoop_firstn (split B) (split A)),
      (versionLoop_firstn (split B) (split A')).
    rewrite E. f_equal. apply versionLoop_parsed; auto.
Qed.

Lemma isNewVersion_reads_common_prefix_witness :
  isNewVersion "01.2.7" "1.3" = isNewVersion "1.02" "1.3" /\
  isNewVersion "1.3" "01.2.7" = isNewVersion "1.3" "1.02".
Proof.
  apply (isNewVersion_reads_common_prefix "01.2.7" "1.02" "1.3").
  reflexivity.
Defined.

Lemma gt_trans (a b c : number) :
  gt a b = true -> gt b c = true -> gt a c = true.
Proof.
  unfold gt. destruct a, b, c; simpl; try discriminate; auto.
  intros H1 H2. apply Z.ltb_lt in H1, H2. apply Z.ltb_lt. lia.
Qed.

(** On dotted-numeric strings a true answer comes from a first position
    with a greater segment, all segments before it being equal. *)
Lemma newer_at_first_difference (A B : string) :
  dottedNumeric A = true -> dottedNumeric B = true ->
  isNewVersion A B = true ->
  exists i a b,
    nth_error (segments A) i = Some a /\ nth_error (segments B) i = Some b /\
    gt a b = true /\
    forall j, j < i -> nth_error (segments A) j = nth_error (segments B) j.
Proof.
  intros HA HB H.
  destruct (isNewVersion_true A B H) as (i & a & b & _ & Ha & Hb & Hab & Hu).
  exists i, a, b. repeat (split; [assumption|]).
  intros j Hj.
  destruct (nth_error_before _ _ _ _ Ha Hj) as (x & Hx).
  destruct (nth_error_before _ _ _ _ Hb Hj) as (y & Hy).
  destruct (Hu j x y Hj Hx Hy) as [Hg Hl].
  rewrite Hx, Hy. f_equal.
  apply trichotomy; eauto using segments_numeric.
Qed.

(** X3.  On dotted-numeric strings [isNewVersion] is transitive: a version
    newer than one that is newer than a third is newer than the third. *)
Theorem isNewVersion_transitive (A B C : string) :
  dottedNumeric A = true -> dottedNumeric B = true ->
  dottedNumeric C = true ->
  isNewVersion A B = true -> isNewVersion B C = true ->
  isNewVersion A C = true.
Proof.
  intros HA HB HC HAB HBC.
  destruct (newer_at_first_difference A B HA HB HAB)
    as (i & a & b & Ha & Hb & Hab & Hi).
  destruct (newer_at_first_difference B C HB HC HBC)
    as (j & b' & c & Hb' & Hc & Hbc & Hj).
  unfold isNewVersion.
  destruct (Nat.lt_trichotomy i j) as [Hlt|[->|Hgt]].
  - rewrite (first_greater_decides A C i a b); auto.
    + rewrite <- (Hj i Hlt). exact Hb.
    + intros k Hk. rewrite (Hi k Hk). apply Hj. lia.
  - assert (b' = b) by congruence. subst b'.
    rewrite (first_greater_decides A C j a c); eauto using gt_trans.
    intros k Hk. rewrite (Hi k Hk). now apply Hj.
  - rewrite (first_greater_decides A C j b' c); auto.
    + rewrite (Hi j Hgt). exact Hb'.
    + intros k Hk. rewrite (Hi k); [now apply Hj|lia].
Qed.

Lemma isNewVersion_transitive_witness :
  isNewVersion "2.0" "1.9.9" = true.
Proof.
  apply (isNewVersion_transitive "2.0" "1.10" "1.9.9"); reflexivity.
Defined.

(** With a segment that is not a number transitivity is lost. *)
Lemma isNewVersion_not_transitive_on_NaN :
  isNewVersion "0.3" "x.2" = true /\ isNewVersion "x.2" "1.1" = true /\
  isNewVersion "0.3" "1.1" = false.
Proof. repeat split; reflexivity. Qed.

(* ================================================================= *)
(** * Further properties of the streams *)

Lemma observe_signals (s : state) :
  signals (after (observe dimNeedsUpdate_S s)) = fst (deliver (signals s)) /\
  emissions (trace (observe dimNeedsUpdate_S s)) = snd (deliver (signals s)).
Proof.
  rewrite observe_dimNeedsUpdate.
  destruct s as [us su d ouf osc cc cmp [[|]|] [[|]|] pol]; destruct su;
    split; reflexivity.
Qed.

(** A tick whose poll succeeds, in one equation. *)
Lemma onTick_served_eq
  (cfg : build) (c : ascii) (v : string) (u : updateEnv) (s : state) :
  polling s = true ->
  let b := isNewVersion (String c v) (DIM_VERSION cfg) in
  let logs := Log Info "Got server version"
              :: advisory (String c v) (DIM_VERSION cfg) in
  let s1 := set_compared (Some b) s in
  let s2 := set_serverVersionChanged (Some (fst (resolved cfg u b s1))) s1 in
  onTick cfg (mkTick (Response true (Json (Some (String c v)))) u) s
  = if match compared s with Some b' => Bool.eqb b' b | None => false end
    then (Return tt, s, logs)
    else (Return tt, after (observe dimNeedsUpdate_S s2),
          (logs ++ snd (resolved cfg u b s1))
          ++ trace (observe dimNeedsUpdate_S s2)).
Proof.
  intros Hp. cbv zeta. unfold onTick. rewrite bind_gets, Hp.
  cbn [when]. unfold tryCatch.
  pose proof (serverVersionChanged_S_served cfg c v u s) as E.
  cbv zeta in E.
  destruct (match compared s with
            | Some b' => Bool.eqb b' (isNewVersion (String c v) (DIM_VERSION cfg))
            | None => false
            end).
  - rewrite (bind_Return _ _ _ _ _ _ E). cbn. now rewrite !app_nil_r.
  - rewrite (bind_Return _ _ _ _ _ _ E), deliver_one. reflexivity.
Qed.

(** The handler of [onupdatefound] on a worker that reached 'installed'
    while the page has a controller, in one equation. *)
Lemma watchInstall_update_eq (cfg : build) (s : state) :
  watchInstall cfg Installed true s
  = (Return tt,
     set_controllerchange (controllerchange (after (nextTrue s)) ++ [false])
       (after (nextTrue s)),
     Log Info "New content is available; please refresh. (from onupdatefound)"
     :: trace (nextTrue s)).
Proof.
  unfold nextTrue.
  destruct (observe_dimNeedsUpdate_frame (set_serviceWorkerUpdated true s))
    as (O & _).
  unfold watchInstall, serviceWorkerUpdated_next, infoLog, perform,
    addControllerChangeListener, modify, gets, when, bind.
  assert (P : polling (set_serviceWorkerUpdated true s) = polling s)
    by (destruct s; reflexivity).
  rewrite P. destruct (polling s).
  - destruct (observe dimNeedsUpdate_S (set_serviceWorkerUpdated true s))
      as [[r s1] t1].
    unfold outcome in O. cbn in O. subst r. cbn. now rewrite app_nil_r.
  - reflexivity.
Qed.

Lemma resolved_emits_nothing (cfg : build) (u : updateEnv) (b : bool)
  (s : state) (logs : list effect) :
  emissions logs = [] ->
  emissions (logs ++ snd (resolved cfg u b s)) = [].
Proof.
  intros H. rewrite emissions_app, H.
  now destruct (resolved_spec cfg u b s) as [_ ->].
Qed.

(** How an event acts on the fields of [dimNeedsUpdate$]: not at all, or
    through one delivery, after [serviceWorkerUpdated$.next(true)] or
    after a new value of [serverVersionChanged$]; or, the subscriptions
    ended, by [serviceWorkerUpdated$.next(true)] alone. *)
Lemma handle_signals (cfg : build) (e : event) (s : state) :
  (emissions (trace (handle cfg e s)) = [] /\
   signals (after (handle cfg e s)) = signals s) \/
  (exists w, e = StateChange w Installed true /\
     handlerOf w s = Some WatchInstall /\ polling s = true /\
     emissions (trace (handle cfg e s))
     = snd (deliver (signals (set_serviceWorkerUpdated true s))) /\
     signals (after (handle cfg e s))
     = fst (deliver (signals (set_serviceWorkerUpdated true s)))) \/
  (exists x, isSuccessfulPoll e = true /\ polling s = true /\
     (x = true -> updateServiceWorkerSet s = true /\
                  comparison cfg e = [true]) /\
     emissions (trace (handle cfg e s))
     = snd (deliver (Some x, serviceWorkerUpdated s, emitted s,
                     dimNeedsUpdate s)) /\
     signals (after (handle cfg e s))
     = fst (deliver (Some x, serviceWorkerUpdated s, emitted s,
                     dimNeedsUpdate s))) \/
  (exists w, e = StateChange w Installed true /\
     handlerOf w s = Some WatchInstall /\ polling s = false /\
     emissions (trace (handle cfg e s)) = [] /\
     signals (after (handle cfg e s))
     = signals (set_serviceWorkerUpdated true s)).
Proof.
  destruct e as [supported registers|w|w st controller| |t|env];
    cbn [handle].
  - left. destruct s as [us su d ouf osc cc cmp svc em pol].
    destruct supported, registers; split; reflexivity.
  - left. rewrite bind_gets.
    destruct s as [us su d ouf osc cc cmp svc em pol].
    unfold onUpdateFound. destruct ouf, (debugSW cfg); split; reflexivity.
  - rewrite bind_gets. destruct (handlerOf w s) as [[|]|] eqn:Hh.
    + destruct st, controller;
        try (left; unfold watchInstall; destruct (debugSW cfg);
             split; reflexivity).
      rewrite watchInstall_update_eq. unfold nextTrue.
      destruct (polling s) eqn:Hp.
      * right. left. exists w. split; [reflexivity|]. split; [exact Hh|].
        split; [reflexivity|].
        destruct (observe_signals (set_serviceWorkerUpdated true s))
          as [O1 O2].
        unfold after, trace in *. cbn [fst snd] in *.
        cbn [emissions]. rewrite O2. split; [reflexivity|].
        rewrite <- O1.
        destruct (snd (fst (observe dimNeedsUpdate_S
                              (set_serviceWorkerUpdated true s)))).
        reflexivity.
      * right. right. right. exists w.
        split; [reflexivity|]. split; [exact Hh|]. split; [reflexivity|].
        destruct s; split; reflexivity.
    + left. destruct st; split; reflexivity.
    + left. split; reflexivity.
  - left. rewrite controllerChange_eq. unfold after, trace. cbn [fst snd].
    rewrite emissions_reloads.
    destruct s as [us su d ouf osc cc cmp svc em pol]; split; reflexivity.
  - destruct (tick_cases t) as [V|[(c & v & u & ->)|(u & ->)]].
    + left. rewrite (onTick_failed cfg t s V). split; reflexivity.
    + destruct (polling s) eqn:Hp.
      * pose proof (onTick_served_eq cfg c v u s Hp) as E. cbv zeta in E.
        rewrite E. clear E.
        destruct (advisory_logs (String c v) (DIM_VERSION cfg)) as [_ A].
        destruct (match compared s with
                  | Some b' =>
                      Bool.eqb b'
                        (isNewVersion (String c v) (DIM_VERSION cfg))
                  | None => false
                  end).
        -- left. unfold trace, after. cbn [fst snd emissions].
           now rewrite A.
        -- right. right. left.
           set (b := isNewVersion (String c v) (DIM_VERSION cfg)).
           set (s1 := set_compared (Some b) s).
           exists (fst (resolved cfg u b s1)).
           split; [reflexivity|]. split; [reflexivity|].
           split.
           { unfold resolved, s1. cbn [comparison fetched servedVersion List.map].
             fold b. destruct b; [|discriminate].
             rewrite updateServiceWorker_eq.
             destruct s as [us su d ouf osc cc cmp svc em pol]; cbn.
             destruct us; [auto|discriminate]. }
           match goal with |- context [observe dimNeedsUpdate_S ?s2] =>
             destruct (observe_signals s2) as [O1 O2] end.
           unfold trace, after in *. cbn [fst snd] in *.
           rewrite emissions_app, O2, O1.
           rewrite resolved_emits_nothing by (cbn; exact A).
           destruct s as [us su d ouf osc cc cmp svc em pol]. 
           split; reflexivity.
      * left. rewrite (onTick_ended cfg _ s Hp). split; reflexivity.
    + left. rewrite onTick_not_a_string.
      destruct s as [us su d ouf osc cc cmp svc em pol].
      destruct pol; split; reflexivity.
  - left. unfold reloadDIM, reloadDIM_try, await_getRegistration, postMessage.
    destruct s as [us su d ouf osc cc cmp svc em pol].
    destruct (getRegistration env) as [| |[w|] [i|]];
      try destruct (postMessageThrows env); split; reflexivity.
Qed.

Lemma changing_app (prev : option bool) (l1 l2 : list bool) :
  changing prev (l1 ++ l2)
  <-> changing prev l1 /\ changing (lastOf prev l1) l2.
Proof.
  revert prev. induction l1 as [|v l1 IH]; intros prev; cbn.
  - tauto.
  - rewrite IH. unfold lastOf. tauto.
Qed.

Lemma lastOf_app (prev : option bool) (l1 l2 : list bool) :
  lastOf prev (l1 ++ l2) = lastOf (lastOf prev l1) l2.
Proof. apply fold_left_app. Qed.

(** One delivery: nothing new, or one value that differs from the last
    one delivered; the flag follows. *)
Lemma deliver_spec (latest : option bool) (updated : bool)
  (last : option bool) (flag : bool) :
  let r := deliver (latest, updated, last, flag) in
  fst (fst (fst (fst r))) = latest /\
  snd (fst (fst (fst r))) = updated /\
  snd (fst (fst r)) = lastOf last (snd r) /\
  changing last (snd r) /\
  (flag = match last with Some v => v | None => false end ->
   snd (fst r) = match snd (fst (fst r)) with Some v => v | None => false end) /\
  (latest = None -> snd r = [] /\ snd (fst r) = flag) /\
  (forall x, latest = Some x -> Forall (eq (x || updated)) (snd r)).
Proof.
  destruct latest as [[|]|], updated, last as [[|]|], flag; cbn;
    repeat split; auto; try discriminate; try (intros; discriminate);
    intros x [= <-]; auto.
Qed.

(** What every event does to the deliveries. *)
Lemma handle_deliveries (cfg : build) (e : event) (s : state) :
  let r := handle cfg e s in
  emitted (after r) = lastOf (emitted s) (emissions (trace r)) /\
  changing (emitted s) (emissions (trace r)) /\
  (flagFollows s -> flagFollows (after r)) /\
  (serverVersionChanged s = None -> isSuccessfulPoll e = false ->
   emissions (trace r) = [] /\ serverVersionChanged (after r) = None /\
   dimNeedsUpdate (after r) = dimNeedsUpdate s).
Proof.
  cbv zeta. unfold flagFollows.
  destruct (handle_signals cfg e s)
    as [[E S]|[(w & _ & _ & _ & E & S)|[(x & P & _ & _ & E & S)
                                        |(w & _ & _ & _ & E & S)]]];
    unfold signals in *;
    cbn [set_serviceWorkerUpdated serverVersionChanged serviceWorkerUpdated
           emitted dimNeedsUpdate] in *;
    rewrite E.
  - injection S as S1 S2 S3 S4. rewrite S3, S4, S1. cbn.
    repeat split; auto.
  - pose proof (deliver_spec (serverVersionChanged s) true (emitted s)
                  (dimNeedsUpdate s)) as D. cbv zeta in D.
    destruct D as (D1 & D2 & D3 & D4 & D5 & D6 & D7).
    destruct (deliver (serverVersionChanged s, true, emitted s,
                       dimNeedsUpdate s)) as [[[[l u] m] f] vs].
    cbn [fst snd] in *. injection S as S1 S2 S3 S4.
    rewrite S1, S3, S4. split; [exact D3|]. split; [exact D4|].
    split; [exact D5|]. intros N _. destruct (D6 N) as [K1 K2].
    rewrite D1. auto.
  - pose proof (deliver_spec (Some x) (serviceWorkerUpdated s) (emitted s)
                  (dimNeedsUpdate s)) as D. cbv zeta in D.
    destruct D as (D1 & D2 & D3 & D4 & D5 & D6 & D7).
    destruct (deliver (Some x, serviceWorkerUpdated s, emitted s,
                       dimNeedsUpdate s)) as [[[[l u] m] f] vs].
    cbn [fst snd] in *. injection S as S1 S2 S3 S4.
    rewrite S3, S4. split; [exact D3|]. split; [exact D4|].
    split; [exact D5|]. intros _ Q. congruence.
  - injection S as S1 S2 S3 S4. rewrite S3, S4, S1. cbn.
    repeat split; auto.
Qed.

Lemma run_deliveries (cfg : build) (es : list event) (s : state) :
  emitted (after (run cfg es s))
  = lastOf (emitted s) (emissions (trace (run cfg es s))) /\
  changing (emitted s) (emissions (trace (run cfg es s))) /\
  (flagFollows s -> flagFollows (after (run cfg es s))) /\
  (serverVersionChanged s = None ->
   Forall (fun e => isSuccessfulPoll e = false) es ->
   emissions (trace (run cfg es s)) = [] /\
   serverVersionChanged (after (run cfg es s)) = None /\
   dimNeedsUpdate (after (run cfg es s)) = dimNeedsUpdate s).
Proof.
  revert s. induction es as [|e es IH]; intros s.
  - cbn. repeat split; auto.
  - destruct (run_cons cfg e es s) as (-> & -> & _).
    pose proof (handle_deliveries cfg e s) as H. cbv zeta in H.
    destruct H as (H1 & H2 & H3 & H4).
    destruct (IH (after (handle cfg e s))) as (I1 & I2 & I3 & I4).
    rewrite emissions_app, lastOf_app, <- H1.
    split; [exact I1|]. split; [|split].
    + apply changing_app. rewrite <- H1. auto.
    + auto.
    + intros N F. inversion F as [|? ? Fe Fes]; subst.
      destruct (H4 N Fe) as (K1 & K2 & K3).
      destruct (I4 K2 Fes) as (J1 & J2 & J3).
      rewrite K1, J1, J3, K3. auto.
Qed.

Lemma lastOf_last (prev : option bool) (l : list bool) :
  lastOf prev l = match l with [] => prev | _ => Some (last l false) end.
Proof.
  revert prev. induction l as [|v l IH]; intros prev; [reflexivity|].
  unfold lastOf in *. cbn [fold_left]. rewrite IH.
  destruct l; reflexivity.
Qed.

(** X4.  [dimNeedsUpdate$] never delivers the same value twice in a row,
    whatever the events: each value delivered differs from the one
    before it. *)
Theorem dimNeedsUpdate_never_repeats
  (cfg : build) (es : list event) (s : state) :
  changing (emitted s) (emissions (trace (run cfg es s))).
Proof. apply run_deliveries. Qed.

(** X5.  The exported flag [dimNeedsUpdate] and the stream agree: after
    any events the flag holds the last value that [dimNeedsUpdate$]
    delivered, and false if it has delivered none. *)
Theorem dimNeedsUpdate_flag_is_last_delivered
  (cfg : build) (es : list event) :
  dimNeedsUpdate (after (run cfg es initial))
  = last (emissions (trace (run cfg es initial))) false.
Proof.
  destruct (run_deliveries cfg es initial) as (E & _ & F & _).
  unfold flagFollows in F. rewrite F by reflexivity.
  rewrite E, lastOf_last.
  destruct (emissions (trace (run cfg es initial))); reflexivity.
Qed.

(** X6.  As long as no poll has succeeded [dimNeedsUpdate$] delivers
    nothing and the flag keeps its value, whatever else happens, a new
    worker installed over a controller included. *)
Theorem nothing_delivered_before_first_poll
  (cfg : build) (es : list event) (s : state) :
  serverVersionChanged s = None ->
  Forall (fun e => isSuccessfulPoll e = false) es ->
  emissions (trace (run cfg es s)) = [] /\
  dimNeedsUpdate (after (run cfg es s)) = dimNeedsUpdate s.
Proof.
  intros N F. destruct (run_deliveries cfg es s) as (_ & _ & _ & H).
  destruct (H N F) as (H1 & _ & H2). auto.
Qed.

Lemma nothing_delivered_before_first_poll_witness :
  emissions
    (trace (run (mkBuild false "1.0.0")
              [Load true true; UpdateFound 1; StateChange 1 Installed true;
               Tick (mkTick FetchRejected (mkUpdateEnv false false))]
              initial)) = [] /\
  dimNeedsUpdate
    (after (run (mkBuild false "1.0.0")
              [Load true true; UpdateFound 1; StateChange 1 Installed true;
               Tick (mkTick FetchRejected (mkUpdateEnv false false))]
              initial)) = dimNeedsUpdate initial.
Proof.
  apply (nothing_delivered_before_first_poll (mkBuild false "1.0.0")
           [Load true true; UpdateFound 1; StateChange 1 Installed true;
            Tick (mkTick FetchRejected (mkUpdateEnv false false))] initial).
  - reflexivity.
  - repeat constructor.
Defined.

(** X7.  The first poll that succeeds delivers exactly one value: true
    when the server's version is newer and the update check left a worker
    waiting, or when a new worker has been installed over a controller;
    false otherwise. *)
Theorem first_poll_delivers
  (cfg : build) (c : ascii) (v : string) (u : updateEnv) (s : state) :
  polling s = true -> compared s = None -> emitted s = None ->
  emissions
    (trace (onTick cfg (mkTick (Response true (Json (Some (String c v)))) u) s))
  = [isNewVersion (String c v) (DIM_VERSION cfg)
       && updateServiceWorkerSet s && waiting u
     || serviceWorkerUpdated s].
Proof.
  intros Hp Hc He.
  pose proof (onTick_served_eq cfg c v u s Hp) as E. cbv zeta in E.
  rewrite E, Hc. clear E.
  set (b := isNewVersion (String c v) (DIM_VERSION cfg)).
  match goal with |- context [observe dimNeedsUpdate_S ?s2] =>
    destruct (observe_signals s2) as [_ O] end.
  unfold trace in *. cbn [fst snd] in *.
  destruct (advisory_logs (String c v) (DIM_VERSION cfg)) as [_ A].
  rewrite emissions_app, O, resolved_emits_nothing by (cbn; exact A).
  unfold resolved. rewrite updateServiceWorker_eq.
  destruct s as [us su d ouf osc cc cmp svc em pol]. cbn in He. subst em.
  cbn. destruct b, us, (waiting u), su; reflexivity.
Qed.

Lemma first_poll_delivers_witness :
  emissions
    (trace (onTick (mkBuild false "1.0.0")
              (mkTick (Response true (Json (Some "1.1.0")))
                 (mkUpdateEnv false true))
              (after (run (mkBuild false "1.0.0") [Load true true] initial))))
  = [true].
Proof.
  apply (first_poll_delivers (mkBuild false "1.0.0") "1" ".1.0"
           (mkUpdateEnv false true)
           (after (run (mkBuild false "1.0.0") [Load true true] initial)));
    reflexivity.
Defined.

Lemma changesToTrue_app (prev : option bool) (l1 l2 : list bool) :
  changesToTrue prev (l1 ++ l2)
  = changesToTrue prev l1 + changesToTrue (lastOf prev l1) l2.
Proof.
  revert prev. induction l1 as [|b l1 IH]; intros prev; [reflexivity|].
  cbn [app changesToTrue]. rewrite IH. unfold lastOf. cbn. lia.
Qed.

Lemma no_update_in_reloads (ls : list bool) :
  count isUpdate (List.map (fun _ => Reload) ls) = 0.
Proof. unfold count. induction ls; simpl; auto. Qed.

Lemma endsPoll_comparison (cfg : build) (e : event) :
  endsPoll e = true -> comparison cfg e = [].
Proof.
  destruct e as [| | | |t|]; try discriminate.
  destruct t as [[|[|] [|[[|c v]|]|]] u]; try discriminate. reflexivity.
Qed.

(** The update checks of one event, the worker being registered. *)
Lemma handle_updates (cfg : build) (e : event) (s : state) :
  polling s = true -> updateServiceWorkerSet s = true ->
  polling (after (handle cfg e s)) = negb (endsPoll e) /\
  updateServiceWorkerSet (after (handle cfg e s)) = true /\
  compared (after (handle cfg e s))
  = lastOf (compared s) (comparison cfg e) /\
  count isUpdate (trace (handle cfg e s))
  = changesToTrue (compared s) (comparison cfg e).
Proof.
  intros Hp Hu.
  destruct e as [supported registers|w|w st controller| |t|env];
    cbn [handle comparison endsPoll negb].
  - destruct s as [us su d ouf osc cc cmp svc em pol]. cbn in Hp, Hu. subst.
    destruct supported, registers; repeat split; reflexivity.
  - rewrite bind_gets.
    destruct s as [us su d ouf osc cc cmp svc em pol]. cbn in Hp, Hu. subst.
    unfold onUpdateFound. destruct ouf, (debugSW cfg);
      repeat split; reflexivity.
  - rewrite bind_gets. destruct (handlerOf w s) as [[|]|].
    + destruct st, controller;
        try (unfold watchInstall; destruct (debugSW cfg);
             repeat split; auto; fail).
      rewrite watchInstall_update_eq. unfold nextTrue. rewrite Hp.
      destruct (observe_dimNeedsUpdate_frame (set_serviceWorkerUpdated true s))
        as (_ & O2 & O3 & _ & O5 & O6 & _).
      unfold after, trace, count in *. cbn [fst snd] in *.
      cbn [filter isUpdate].
      destruct (snd (fst (observe dimNeedsUpdate_S
                            (set_serviceWorkerUpdated true s)))).
      destruct s as [us su d ouf osc cc cmp svc em pol].
      cbn in *. subst. repeat split; auto.
    + destruct st; repeat split; auto.
    + repeat split; auto.
  - rewrite controllerChange_eq.
    destruct s as [us su d ouf osc cc cmp svc em pol]. cbn in Hp, Hu. subst.
    unfold after, trace. cbn [fst snd]. rewrite no_update_in_reloads.
    repeat split; reflexivity.
  - destruct (tick_cases t) as [V|[(c & v & u & ->)|(u & ->)]].
    + rewrite (onTick_failed cfg t s V).
      destruct t as [[|[|] [|[[|c v]|]|]] u]; try discriminate V;
        repeat split; auto.
    + cbn [fetched servedVersion List.map].
      pose proof (onTick_served cfg c v u s Hp) as K. cbv zeta in K.
      destruct K as (_ & K1 & K2 & _ & K3 & K4 & _).
      rewrite K1, K2, K3, K4, Hu. repeat split; auto.
    + rewrite onTick_not_a_string, Hp.
      destruct s as [us su d ouf osc cc cmp svc em pol]. cbn in Hp, Hu. subst.
      repeat split; reflexivity.
  - unfold reloadDIM, reloadDIM_try, await_getRegistration, postMessage.
    destruct s as [us su d ouf osc cc cmp svc em pol]. cbn in Hp, Hu. subst.
    destruct (getRegistration env) as [| |[w|] [i|]];
      try destruct (postMessageThrows env); repeat split; reflexivity.
Qed.

(** Once the subscriptions have ended no event leads to an update
    check. *)
Lemma handle_ended_updates (cfg : build) (e : event) (s : state) :
  polling s = false -> count isUpdate (trace (handle cfg e s)) = 0.
Proof.
  intros Hp.
  destruct e as [supported registers|w|w st controller| |t|env];
    cbn [handle].
  - destruct s as [us su d ouf osc cc cmp svc em pol].
    destruct supported, registers; reflexivity.
  - rewrite bind_gets.
    destruct s as [us su d ouf osc cc cmp svc em pol].
    unfold onUpdateFound. destruct ouf, (debugSW cfg); reflexivity.
  - rewrite bind_gets. destruct (handlerOf w s) as [[|]|].
    + destruct st, controller;
        try (unfold watchInstall; destruct (debugSW cfg); reflexivity).
      rewrite watchInstall_update_eq. unfold nextTrue. rewrite Hp.
      reflexivity.
    + destruct st; reflexivity.
    + reflexivity.
  - rewrite controllerChange_eq. unfold trace. cbn [fst snd].
    apply no_update_in_reloads.
  - now rewrite (onTick_ended cfg t s Hp).
  - unfold reloadDIM, reloadDIM_try, await_getRegistration, postMessage.
    destruct s as [us su d ouf osc cc cmp svc em pol].
    destruct (getRegistration env) as [| |[w|] [i|]];
      try destruct (postMessageThrows env); reflexivity.
Qed.

Lemma run_ended_updates (cfg : build) (es : list event) (s : state) :
  polling s = false -> count isUpdate (trace (run cfg es s)) = 0.
Proof.
  revert s. induction es as [|e es IH]; intros s Hp; [reflexivity|].
  destruct (run_cons cfg e es s) as (-> & _ & _).
  rewrite count_app, (handle_ended_updates cfg e s Hp), IH; [reflexivity|].
  destruct (handle_keeps cfg e s) as [-> _]. now rewrite Hp.
Qed.

(** X8.  With the worker registered, over any events whatever,
    [registration.update()] is called once for each change of the poll's
    comparison to true, failed polls and all other events counting for
    nothing; a poll that brings a version that is no string ends the
    subscriptions, and no poll after it is compared. *)
Theorem update_checked_once_per_change
  (cfg : build) (es : list event) (s : state) :
  polling s = true -> updateServiceWorkerSet s = true ->
  count isUpdate (trace (run cfg es s))
  = changesToTrue (compared s)
      (flat_map (comparison cfg) (whileSubscribed es)).
Proof.
  revert s. induction es as [|e es IH]; intros s Hp Hu; [reflexivity|].
  destruct (run_cons cfg e es s) as (-> & _ & _).
  destruct (handle_updates cfg e s Hp Hu) as (K1 & K2 & K3 & K4).
  cbn [whileSubscribed]. rewrite count_app, K4.
  destruct (endsPoll e) eqn:E.
  - rewrite (endsPoll_comparison cfg e E), run_ended_updates by exact K1.
    reflexivity.
  - cbn [flat_map]. rewrite changesToTrue_app, IH, K3; auto.
Qed.

Lemma update_checked_once_per_change_witness :
  count isUpdate
    (trace (run (mkBuild true "1.0.0")
              [serves "1.0.0" false;
               Tick (mkTick FetchRejected (mkUpdateEnv false false));
               serves "1.1.0" false; UpdateFound 3; serves "1.2.0" true;
               ControllerChange; serves "0.9" false; serves "2.0" true;
               Tick (mkTick (Response true JsonOther)
                       (mkUpdateEnv false false));
               serves "1.0.0" false; serves "3.0" true]
              (after (run (mkBuild true "1.0.0") [Load true true] initial))))
  = changesToTrue None [false; true; true; false; true].
Proof.
  apply (update_checked_once_per_change (mkBuild true "1.0.0")
           [serves "1.0.0" false;
            Tick (mkTick FetchRejected (mkUpdateEnv false false));
            serves "1.1.0" false; UpdateFound 3; serves "1.2.0" true;
            ControllerChange; serves "0.9" false; serves "2.0" true;
            Tick (mkTick (Response true JsonOther)
                    (mkUpdateEnv false false));
            serves "1.0.0" false; serves "3.0" true]
           (after (run (mkBuild true "1.0.0") [Load true true] initial)));
    reflexivity.
Defined.

Lemma run_one (cfg : build) (e : event) (s : state) :
  trace (run cfg [e] s) = trace (handle cfg e s) /\
  after (run cfg [e] s) = after (handle cfg e s).
Proof.
  destruct (run_cons cfg e [] s) as (-> & -> & _). cbn.
  now rewrite app_nil_r.
Qed.

(** A tick after a tick with the same answer. *)
Lemma second_poll_idle
  (cfg : build) (r : fetchResult) (u u' : updateEnv) (s : state) :
  let s1 := after (handle cfg (Tick (mkTick r u)) s) in
  after (handle cfg (Tick (mkTick r u')) s1) = s1 /\
  emissions (trace (handle cfg (Tick (mkTick r u')) s1)) = [] /\
  count isUpdate (trace (handle cfg (Tick (mkTick r u')) s1)) = 0.
Proof.
  intros s1. cbn [handle].
  destruct (tick_cases (mkTick r u')) as [V|[(c & v & u0 & E0)|(u0 & E0)]].
  - rewrite (onTick_failed cfg (mkTick r u') s1 V). auto.
  - injection E0 as E0 _. subst r.
    destruct (polling s1) eqn:Hp1.
    + assert (Hp : polling s = true).
      { destruct (polling s) eqn:Hp; [reflexivity|].
        unfold s1 in Hp1. cbn [handle] in Hp1. unfold onTick in Hp1.
        rewrite bind_gets, Hp in Hp1. cbn in Hp1. congruence. }
      pose proof (onTick_served cfg c v u s Hp) as K. cbv zeta in K.
      destruct K as (_ & _ & _ & _ & K3 & _).
      pose proof (onTick_served_eq cfg c v u' s1 Hp1) as E. cbv zeta in E.
      assert (C1 : compared s1
                   = Some (isNewVersion (String c v) (DIM_VERSION cfg)))
        by exact K3.
      rewrite E, C1, Bool.eqb_reflx.
      destruct (advisory_logs (String c v) (DIM_VERSION cfg)) as [A1 A2].
      unfold after, trace, count in *.
      cbn [fst snd emissions filter isUpdate]. auto.
    + unfold onTick. rewrite bind_gets, Hp1. auto.
  - injection E0 as E0 _. subst r.
    assert (Hp1 : polling s1 = false).
    { unfold s1. cbn [handle]. rewrite onTick_not_a_string.
      destruct (polling s) eqn:Hp; [destruct s; reflexivity|exact Hp]. }
    rewrite (onTick_ended cfg _ s1 Hp1). auto.
Qed.

(** X9.  A poll that gives the same answer as the poll before it changes
    nothing: handled twice in a row, a tick leaves the state that one
    handling leaves, delivers no further value and checks for no further
    update, whatever the update check would have met. *)
Theorem repeated_poll_is_idle
  (cfg : build) (r : fetchResult) (u u' : updateEnv) (s : state) :
  after (run cfg [Tick (mkTick r u); Tick (mkTick r u')] s)
  = after (run cfg [Tick (mkTick r u)] s) /\
  emissions (trace (run cfg [Tick (mkTick r u); Tick (mkTick r u')] s))
  = emissions (trace (run cfg [Tick (mkTick r u)] s)) /\
  count isUpdate (trace (run cfg [Tick (mkTick r u); Tick (mkTick r u')] s))
  = count isUpdate (trace (run cfg [Tick (mkTick r u)] s)).
Proof.
  destruct (run_cons cfg (Tick (mkTick r u)) [Tick (mkTick r u')] s)
    as (-> & -> & _).
  destruct (run_one cfg (Tick (mkTick r u)) s) as [-> ->].
  destruct (run_one cfg (Tick (mkTick r u'))
              (after (handle cfg (Tick (mkTick r u)) s))) as [-> ->].
  pose proof (second_poll_idle cfg r u u' s) as Q. cbv zeta in Q.
  destruct Q as (Q1 & Q2 & Q3).
  rewrite emissions_app, count_app, Q1, Q2, Q3, app_nil_r. auto.
Qed.

Lemma observe_wiring (s : state) :
  wiring (after (observe dimNeedsUpdate_S s)) = wiring s.
Proof.
  rewrite observe_dimNeedsUpdate.
  destruct s as [us su d ouf osc cc cmp [[|]|] [[|]|] pol]; destruct su;
    reflexivity.
Qed.

Lemma onTick_wiring (cfg : build) (t : tick) (s : state) :
  wiring (after (onTick cfg t s)) = wiring s.
Proof.
  destruct (tick_cases t) as [V|[(c & v & u & ->)|(u & ->)]].
  - now rewrite (onTick_failed cfg t s V).
  - destruct (polling s) eqn:Hp.
    + pose proof (onTick_served_eq cfg c v u s Hp) as E. cbv zeta in E.
      rewrite E.
      destruct (match compared s with
                | Some b' =>
                    Bool.eqb b' (isNewVersion (String c v) (DIM_VERSION cfg))
                | None => false
                end); [reflexivity|].
      unfold after at 1. cbn [fst snd]. rewrite observe_wiring.
      destruct s; reflexivity.
    + unfold onTick. rewrite bind_gets, Hp. reflexivity.
  - rewrite onTick_not_a_string. destruct s as [us su d ouf osc cc cmp svc em [|]];
      reflexivity.
Qed.

Lemma handlerOf_wiring (w : nat) (s s' : state) :
  wiring s' = wiring s -> handlerOf w s' = handlerOf w s.
Proof.
  unfold wiring, handlerOf. intros [= _ _ -> _]. reflexivity.
Qed.

Lemma handlerOf_only_skipWaiting (w : nat) (s : state) :
  Forall (fun p => snd p = SkipWaitingOnInstall) (onstatechange s) ->
  handlerOf w s <> Some WatchInstall.
Proof.
  unfold handlerOf. intros F.
  destruct (find (fun p => fst p =? w) (onstatechange s)) as [[w' h]|] eqn:E;
    [|discriminate].
  apply find_some in E as [E _].
  rewrite Forall_forall in F. specialize (F _ E). cbn in F. congruence.
Qed.

(** The page without a registered worker: what an event other than a
    successful registration keeps. *)
Lemma handle_unregistered (cfg : build) (e : event) (s : state) :
  isRegistration e = false ->
  updateServiceWorkerSet s = false -> onupdatefound s = false ->
  Forall (fun p => snd p = SkipWaitingOnInstall) (onstatechange s) ->
  serviceWorkerUpdated s = false ->
  updateServiceWorkerSet (after (handle cfg e s)) = false /\
  onupdatefound (after (handle cfg e s)) = false /\
  Forall (fun p => snd p = SkipWaitingOnInstall)
    (onstatechange (after (handle cfg e s))) /\
  serviceWorkerUpdated (after (handle cfg e s)) = false /\
  count isUpdate (trace (handle cfg e s)) = 0 /\
  Forall (eq false) (emissions (trace (handle cfg e s))).
Proof.
  intros R Hu Ho Hh Hs.
  assert (Em : Forall (eq false) (emissions (trace (handle cfg e s))) /\
               serviceWorkerUpdated (after (handle cfg e s)) = false).
  { destruct (handle_signals cfg e s)
      as [[E S]|[(w & _ & W & _)|[(x & _ & _ & X & E & S)|(w & _ & W & _)]]].
    - rewrite E. unfold signals in S. injection S as _ S _ _.
      split; [constructor|congruence].
    - now apply handlerOf_only_skipWaiting in W.
    - assert (x = false) as ->.
      { destruct x; [|reflexivity]. destruct X as [X _]; congruence. }
      pose proof (deliver_spec (Some false) (serviceWorkerUpdated s)
                    (emitted s) (dimNeedsUpdate s)) as D. cbv zeta in D.
      destruct D as (_ & D2 & _ & _ & _ & _ & D7).
      rewrite E. unfold signals in S.
      destruct (deliver (Some false, serviceWorkerUpdated s, emitted s,
                         dimNeedsUpdate s)) as [[[[l u] m] f] vs].
      cbn [fst snd] in *. injection S as _ S _ _.
      specialize (D7 false eq_refl). rewrite Hs in D7. cbn in D7.
      split; [exact D7|congruence].
    - now apply handlerOf_only_skipWaiting in W. }
  destruct Em as [Em Su].
  split; [|split; [|split; [|split; [exact Su|split; [|exact Em]]]]];
    clear Em Su.
  - destruct e as [supported registers|w|w st controller| |t|env];
      cbn [handle].
    + destruct s as [us su d ouf osc cc cmp svc em pol]. cbn in *. subst.
      destruct supported, registers; try discriminate R; reflexivity.
    + rewrite bind_gets, Ho. exact Hu.
    + rewrite bind_gets.
      pose proof (handlerOf_only_skipWaiting w s Hh) as N.
      destruct (handlerOf w s) as [[|]|]; [congruence| |exact Hu].
      destruct st; exact Hu.
    + rewrite controllerChange_eq. destruct s; exact Hu.
    + pose proof (onTick_wiring cfg t s) as W. unfold wiring in W.
      injection W as W _ _ _. congruence.
    + unfold reloadDIM, reloadDIM_try, await_getRegistration, postMessage.
      destruct s as [us su d ouf osc cc cmp svc em pol]. cbn in *. subst.
      destruct (getRegistration env) as [| |[w|] [i|]];
        try destruct (postMessageThrows env); reflexivity.
  - destruct e as [supported registers|w|w st controller| |t|env];
      cbn [handle].
    + destruct s as [us su d ouf osc cc cmp svc em pol]. cbn in *. subst.
      destruct supported, registers; try discriminate R; reflexivity.
    + rewrite bind_gets, Ho. exact Ho.
    + rewrite bind_gets.
      pose proof (handlerOf_only_skipWaiting w s Hh) as N.
      destruct (handlerOf w s) as [[|]|]; [congruence| |exact Ho].
      destruct st; exact Ho.
    + rewrite controllerChange_eq. destruct s; exact Ho.
    + pose proof (onTick_wiring cfg t s) as W. unfold wiring in W.
      injection W as _ W _ _. congruence.
    + unfold reloadDIM, reloadDIM_try, await_getRegistration, postMessage.
      destruct s as [us su d ouf osc cc cmp svc em pol]. cbn in *. subst.
      destruct (getRegistration env) as [| |[w|] [i|]];
        try destruct (postMessageThrows env); reflexivity.
  - destruct e as [supported registers|w|w st controller| |t|env];
      cbn [handle].
    + destruct s as [us su d ouf osc cc cmp svc em pol]. cbn in *. subst.
      destruct supported, registers; try discriminate R; exact Hh.
    + rewrite bind_gets, Ho. exact Hh.
    + rewrite bind_gets.
      pose proof (handlerOf_only_skipWaiting w s Hh) as N.
      destruct (handlerOf w s) as [[|]|]; [congruence| |exact Hh].
      destruct st; exact Hh.
    + rewrite controllerChange_eq. destruct s; exact Hh.
    + pose proof (onTick_wiring cfg t s) as W. unfold wiring in W.
      injection W as _ _ W _. congruence.
    + unfold reloadDIM, reloadDIM_try, await_getRegistration, postMessage.
      destruct s as [us su d ouf osc cc cmp svc em pol]. cbn in *. subst.
      destruct (getRegistration env) as [| |[w|] [i|]];
        try destruct (postMessageThrows env); cbn; auto.
  - destruct e as [supported registers|w|w st controller| |t|env];
      cbn [handle].
    + destruct s as [us su d ouf osc cc cmp svc em pol]. cbn in *. subst.
      destruct supported, registers; try discriminate R; reflexivity.
    + rewrite bind_gets, Ho. reflexivity.
    + rewrite bind_gets.
      pose proof (handlerOf_only_skipWaiting w s Hh) as N.
      destruct (handlerOf w s) as [[|]|]; [congruence| |reflexivity].
      destruct st; reflexivity.
    + rewrite controllerChange_eq. unfold trace. cbn [snd].
      apply no_update_in_reloads.
    + destruct (tick_cases t) as [V|[(c & v & u & ->)|(u & ->)]].
      * now rewrite (onTick_failed cfg t s V).
      * destruct (polling s) eqn:Hp.
        -- pose proof (onTick_served cfg c v u s Hp) as K. cbv zeta in K.
           destruct K as (_ & _ & _ & _ & _ & K & _). now rewrite K, Hu.
        -- unfold onTick. rewrite bind_gets, Hp. reflexivity.
      * rewrite onTick_not_a_string. destruct (polling s); reflexivity.
    + unfold reloadDIM, reloadDIM_try, await_getRegistration, postMessage.
      destruct (getRegistration env) as [| |[w|] [i|]];
        try destruct (postMessageThrows env); reflexivity.
Qed.

Lemma run_unregistered (cfg : build) (es : list event) (s : state) :
  Forall (fun e => isRegistration e = false) es ->
  updateServiceWorkerSet s = false -> onupdatefound s = false ->
  Forall (fun p => snd p = SkipWaitingOnInstall) (onstatechange s) ->
  serviceWorkerUpdated s = false ->
  count isUpdate (trace (run cfg es s)) = 0 /\
  Forall (eq false) (emissions (trace (run cfg es s))) /\
  serviceWorkerUpdated (after (run cfg es s)) = false.
Proof.
  intros F. revert s.
  induction F as [|e es R _ IH]; intros s Hu Ho Hh Hs.
  - cbn. auto.
  - destruct (run_cons cfg e es s) as (-> & -> & _).
    destruct (handle_unregistered cfg e s R Hu Ho Hh Hs)
      as (K1 & K2 & K3 & K4 & K5 & K6).
    destruct (IH _ K1 K2 K3 K4) as (I1 & I2 & I3).
    rewrite count_app, emissions_app, K5, I1.
    repeat split; auto. apply Forall_app. auto.
Qed.

Lemma Forall_last {A : Type} (P : A -> Prop) (l : list A) (d : A) :
  P d -> Forall P l -> P (last l d).
Proof.
  intros Hd F. induction F as [|x l Hx F IH]; [exact Hd|].
  destruct l; [exact Hx|exact IH].
Qed.

(** X10.  Where no registration of the worker ever succeeds (no support
    for service workers, or [register] rejecting), the page never checks
    for an update of the worker and never finds that it needs one: every
    value that [dimNeedsUpdate$] delivers is false and the flag stays
    false, however new the version on the server. *)
Theorem no_worker_no_update (cfg : build) (es : list event) :
  Forall (fun e => isRegistration e = false) es ->
  count isUpdate (trace (run cfg es initial)) = 0 /\
  Forall (eq false) (emissions (trace (run cfg es initial))) /\
  dimNeedsUpdate (after (run cfg es initial)) = false.
Proof.
  intros F.
  destruct (run_unregistered cfg es initial F) as (K1 & K2 & _);
    try reflexivity; [constructor|].
  repeat (split; [assumption|]).
  destruct (run_deliveries cfg es initial) as (E & _ & G & _).
  unfold flagFollows in G. rewrite G by reflexivity.
  rewrite E, lastOf_last.
  destruct (emissions (trace (run cfg es initial))) as [|v l] eqn:Q;
    [reflexivity|].
  symmetry. now apply (Forall_last (eq false)).
Qed.

Lemma no_worker_no_update_witness :
  Forall (eq false)
    (emissions
       (trace (run (mkBuild true "1.0.0")
                 [Load true false; serves "1.0.0" true; serves "9.0.0" true;
                  CallReloadDIM (mkReloadEnv NoRegistration false);
                  Load false true; serves "1.0.0" true]
                 initial))).
Proof.
  apply (no_worker_no_update (mkBuild true "1.0.0")
           [Load true false; serves "1.0.0" true; serves "9.0.0" true;
            CallReloadDIM (mkReloadEnv NoRegistration false);
            Load false true; serves "1.0.0" true]).
  repeat constructor.
Defined.





(** X12.  [serviceWorkerUpdated$] is a latch: once it holds true it holds
    true after any events, and from then on [dimNeedsUpdate$] delivers
    nothing but true. *)
Theorem serviceWorkerUpdated_is_a_latch
  (cfg : build) (es : list event) (s : state) :
  serviceWorkerUpdated s = true ->
  serviceWorkerUpdated (after (run cfg es s)) = true /\
  Forall (eq true) (emissions (trace (run cfg es s))).
Proof. exact (proj2 (run_keeps cfg es s)). Qed.

Lemma serviceWorkerUpdated_is_a_latch_witness :
  Forall (eq true)
    (emissions
       (trace (run (mkBuild false "1.0.0")
                 [serves "2.0.0" true; serves "1.0.0" true;
                  serves "0.9.0" false]
                 (after (run (mkBuild false "1.0.0")
                           [Load true true; UpdateFound 1; install 1]
                           initial))))).
Proof.
  apply (serviceWorkerUpdated_is_a_latch (mkBuild false "1.0.0")).
  reflexivity.
Defined.


Lemma run_step (cfg : build) (e : event) (es : list event)
  (s s1 : state) (r : result unit) (t : list effect) :
  handle cfg e s = (r, s1, t) ->
  trace (run cfg (e :: es) s) = t ++ trace (run cfg es s1) /\
  after (run cfg (e :: es) s) = after (run cfg es s1).
Proof.
  intros H. destruct (run_cons cfg e es s) as (-> & -> & _).
  now rewrite H.
Qed.







(** X14.  [reloadDIM] on an installing worker takes the worker's
    [onstatechange] over: when that worker then reaches 'installed' it is
    sent 'skipWaiting', but [serviceWorkerUpdated$] is left as it was, no
    'controllerchange' listener is added and, the earlier listeners
    having fired, no later 'controllerchange' reloads the page. *)
Theorem reloadDIM_takes_over_installing_worker
  (cfg : build) (w n : nat) (controller throws : bool) (s : state) :
  Forall (fun guard => guard = true) (controllerchange s) ->
  let es := CallReloadDIM
              (mkReloadEnv (Registration None (Some w)) throws)
            :: StateChange w Installed controller
            :: repeat ControllerChange n in
  count isReload (trace (run cfg es s)) = 0 /\
  In (PostMessage w "skipWaiting") (trace (run cfg es s)) /\
  serviceWorkerUpdated (after (run cfg es s)) = serviceWorkerUpdated s /\
  controllerchange (after (run cfg es s)) = controllerchange s.
Proof.
  intros Hs es. subst es.
  set (s1 := assign_onstatechange w SkipWaitingOnInstall s).
  assert (E1 : handle cfg
                 (CallReloadDIM (mkReloadEnv (Registration None (Some w)) throws))
                 s
               = (Return tt, s1,
                  [Log Error "registration.waiting is null!";
                   Log Info "found an installing service worker"]))
    by reflexivity.
  assert (E2 : handle cfg (StateChange w Installed controller) s1
               = (Return tt, s1,
                  [Log Info "installing service worker installed, skip waiting";
                   PostMessage w "skipWaiting"])).
  { cbn [handle]. rewrite bind_gets.
    assert (handlerOf w s1 = Some SkipWaitingOnInstall) as ->.
    { unfold handlerOf, s1, assign_onstatechange. destruct s. cbn.
      now rewrite Nat.eqb_refl. }
    reflexivity. }
  destruct (run_step cfg _
              (StateChange w Installed controller :: repeat ControllerChange n)
              _ _ _ _ E1) as [-> ->].
  destruct (run_step cfg _ (repeat ControllerChange n) _ _ _ _ E2)
    as [-> ->].
  clear E1 E2.
  assert (C : controllerchange s1 = controllerchange s)
    by (destruct s; reflexivity).
  assert (U : serviceWorkerUpdated s1 = serviceWorkerUpdated s)
    by (destruct s; reflexivity).
  assert (K : count isReload (trace (run cfg (repeat ControllerChange n) s1))
              = 0).
  { rewrite controllerChanges_reload, C, (all_spent_filter _ Hs).
    destruct n; reflexivity. }
  split; [|split; [|split]].
  - rewrite !count_app, K. reflexivity.
  - apply in_or_app. right. apply in_or_app. left. right. now left.
  - rewrite <- U. clear. generalize s1. 
    induction n as [|n IH]; intros s0; [reflexivity|].
    cbn [repeat]. destruct (run_cons cfg ControllerChange
                              (repeat ControllerChange n) s0) as (_ & -> & _).
    rewrite IH. cbn [handle]. rewrite controllerChange_eq.
    destruct s0; reflexivity.
  - rewrite <- C. rewrite <- C in Hs. revert Hs. clear. generalize s1.
    induction n as [|n IH]; intros s0 Hs; [reflexivity|].
    cbn [repeat]. destruct (run_cons cfg ControllerChange
                              (repeat ControllerChange n) s0) as (_ & -> & _).
    assert (Q : controllerchange (after (handle cfg ControllerChange s0))
                = controllerchange s0).
    { cbn [handle]. rewrite controllerChange_eq. unfold after. cbn [fst snd].
      destruct s0 as [us su d ouf osc cc cmp svc em pol]. cbn in *.
      clear -Hs. induction Hs as [|g l -> _ IHl]; cbn; congruence. }
    rewrite IH; [exact Q|]. now rewrite Q.
Qed.

Lemma reloadDIM_takes_over_installing_worker_witness :
  count isReload
    (trace (run (mkBuild false "1.0.0")
              (CallReloadDIM (mkReloadEnv (Registration None (Some 1)) false)
               :: StateChange 1 Installed true :: repeat ControllerChange 2)
              (after (run (mkBuild false "1.0.0")
                        [Load true true; UpdateFound 1] initial)))) = 0.
Proof.
  apply (reloadDIM_takes_over_installing_worker (mkBuild false "1.0.0") 1 2
           true false
           (after (run (mkBuild false "1.0.0")
                     [Load true true; UpdateFound 1] initial))).
  constructor.
Defined.

Lemma deliver_or (latest : option bool) (updated : bool)
  (last : option bool) (flag : bool) :
  (flag = match latest with Some x => x || updated | None => false end
   \/ latest <> None) ->
  snd (fst (deliver (latest, updated, last, flag)))
  = match latest with Some x => x || updated | None => false end.
Proof.
  destruct latest as [[|]|], updated, last as [[|]|], flag; cbn;
    intros [H|H]; congruence.
Qed.

Lemma handle_flagIsOr (cfg : build) (e : event) (s : state) :
  polling s = true -> flagIsOr s -> flagIsOr (after (handle cfg e s)).
Proof.
  unfold flagIsOr. intros Hp I.
  destruct (handle_signals cfg e s)
    as [[_ S]|[(w & _ & _ & _ & _ & S)
              |[(x & _ & _ & _ & _ & S)|(w & _ & _ & P & _)]]];
    [| | |congruence];
    unfold signals in S;
    cbn [set_serviceWorkerUpdated serverVersionChanged serviceWorkerUpdated
           emitted dimNeedsUpdate] in S.
  - injection S as -> -> _ ->. exact I.
  - pose proof (deliver_or (serverVersionChanged s) true (emitted s)
                  (dimNeedsUpdate s)) as O.
    pose proof (deliver_spec (serverVersionChanged s) true (emitted s)
                  (dimNeedsUpdate s)) as D. cbv zeta in D.
    destruct D as (D1 & D2 & _).
    destruct (deliver (serverVersionChanged s, true, emitted s,
                       dimNeedsUpdate s)) as [[[[l u] m] f] vs].
    cbn [fst snd] in *. injection S as -> -> _ ->. subst l u.
    apply O. destruct (serverVersionChanged s) as [x|].
    + right. discriminate.
    + left. exact I.
  - pose proof (deliver_or (Some x) (serviceWorkerUpdated s) (emitted s)
                  (dimNeedsUpdate s)) as O.
    pose proof (deliver_spec (Some x) (serviceWorkerUpdated s) (emitted s)
                  (dimNeedsUpdate s)) as D. cbv zeta in D.
    destruct D as (D1 & D2 & _).
    destruct (deliver (Some x, serviceWorkerUpdated s, emitted s,
                       dimNeedsUpdate s)) as [[[[l u] m] f] vs].
    cbn [fst snd] in *. injection S as -> -> _ ->. subst l u.
    apply O. right. discriminate.
Qed.

Lemma run_flagIsOr (cfg : build) (es : list event) (s : state) :
  polling s = true -> flagIsOr s -> existsb endsPoll es = false ->
  flagIsOr (after (run cfg es s)).
Proof.
  revert s. induction es as [|e es IH]; intros s Hp I N; [exact I|].
  cbn [existsb] in N. apply Bool.orb_false_elim in N as [N1 N2].
  destruct (run_cons cfg e es s) as (_ & -> & _).
  apply IH; [|now apply handle_flagIsOr|exact N2].
  destruct (handle_keeps cfg e s) as [-> _]. now rewrite Hp, N1.
Qed.

(** The tick that ends the subscriptions leaves the flag as it is, and
    so does every event after it. *)
Lemma handle_ending_flag (cfg : build) (e : event) (s : state) :
  endsPoll e = true ->
  dimNeedsUpdate (after (handle cfg e s)) = dimNeedsUpdate s.
Proof.
  destruct e as [| | | |t|]; try discriminate.
  destruct t as [[|[|] [|[[|c v]|]|]] u]; try discriminate. intros _.
  cbn [handle]. rewrite onTick_not_a_string.
  destruct s as [us su d ouf osc cc cmp svc em [|]]; reflexivity.
Qed.

Lemma handle_ended_flag (cfg : build) (e : event) (s : state) :
  polling s = false ->
  dimNeedsUpdate (after (handle cfg e s)) = dimNeedsUpdate s.
Proof.
  intros Hp.
  destruct (handle_signals cfg e s)
    as [[_ S]|[(w & _ & _ & P & _)
              |[(x & _ & P & _)|(w & _ & _ & _ & _ & S)]]];
    try congruence; unfold signals in S;
    cbn [set_serviceWorkerUpdated serverVersionChanged serviceWorkerUpdated
           emitted dimNeedsUpdate] in S;
    now injection S.
Qed.

Lemma run_ended_flag (cfg : build) (es : list event) (s : state) :
  polling s = false ->
  dimNeedsUpdate (after (run cfg es s)) = dimNeedsUpdate s.
Proof.
  revert s. induction es as [|e es IH]; intros s Hp; [reflexivity|].
  destruct (run_cons cfg e es s) as (_ & -> & _).
  rewrite IH; [now apply handle_ended_flag|].
  destruct (handle_keeps cfg e s) as [-> _]. now rewrite Hp.
Qed.

Lemma run_whileSubscribed (cfg : build) (es : list event) (s : state) :
  polling s = true ->
  dimNeedsUpdate (after (run cfg es s))
  = dimNeedsUpdate (after (run cfg (whileSubscribed es) s)).
Proof.
  revert s. induction es as [|e es IH]; intros s Hp; [reflexivity|].
  cbn [whileSubscribed].
  destruct (run_cons cfg e es s) as (_ & -> & _).
  destruct (handle_keeps cfg e s) as [K _]. rewrite Hp in K.
  destruct (endsPoll e) eqn:E.
  - rewrite run_ended_flag by exact K. now apply handle_ending_flag.
  - destruct (run_cons cfg e (whileSubscribed es) s) as (_ & -> & _).
    apply IH. exact K.
Qed.

(** X18.  As long as no poll has ended the subscriptions of
    [dimNeedsUpdate$], the flag [dimNeedsUpdate] is the disjunction of
    the two inputs as they stand: the last value of
    [serverVersionChanged$] or the value held by [serviceWorkerUpdated$],
    and false as long as [serverVersionChanged$] has had no value.  Once
    a poll has brought a version that is no string the flag keeps the
    value it had then, whatever the events that follow. *)
Theorem dimNeedsUpdate_is_or_of_inputs_while_subscribed
  (cfg : build) (es : list event) :
  (existsb endsPoll es = false ->
   dimNeedsUpdate (after (run cfg es initial))
   = match serverVersionChanged (after (run cfg es initial)) with
     | Some serverVersionChanged =>
         serverVersionChanged
         || serviceWorkerUpdated (after (run cfg es initial))
     | None => false
     end) /\
  dimNeedsUpdate (after (run cfg es initial))
  = dimNeedsUpdate (after (run cfg (whileSubscribed es) initial)).
Proof.
  split.
  - intros N. change (flagIsOr (after (run cfg es initial))).
    apply run_flagIsOr; [reflexivity|reflexivity|exact N].
  - now apply run_whileSubscribed.
Qed.

Lemma dimNeedsUpdate_is_or_of_inputs_while_subscribed_witness :
  dimNeedsUpdate
    (after (run (mkBuild false "1.0.0")
              [Load true true; serves "1.0.0" false; UpdateFound 1;
               install 1]
              initial))
  = match
      serverVersionChanged
        (after (run (mkBuild false "1.0.0")
                  [Load true true; serves "1.0.0" false; UpdateFound 1;
                   install 1]
                  initial))
    with
    | Some serverVersionChanged =>
        serverVersionChanged
        || serviceWorkerUpdated
             (after (run (mkBuild false "1.0.0")
                       [Load true true; serves "1.0.0" false; UpdateFound 1;
                        install 1]
                       initial))
    | None => false
    end.
Proof.
  apply (proj1 (dimNeedsUpdate_is_or_of_inputs_while_subscribed
                  (mkBuild false "1.0.0")
                  [Load true true; serves "1.0.0" false; UpdateFound 1;
                   install 1])).
  reflexivity.
Defined.

(* ================================================================= *)
(** * Vendor drops *)

Section VendorEngramsFacts.

Context {VendorDropXyz VendorDrop VendorDropsState : Type}.
Variable toVendorDrop : VendorDropXyz -> VendorDrop.
Variable nextRefresh : VendorDrop -> option Z.
Variable vendorDrops : VendorDropsState -> option (list VendorDrop).

Lemma refreshDue_later (now later : Z) (vd : VendorDrop) :
  (now <= later)%Z -> refreshDue nextRefresh now vd = true ->
  refreshDue nextRefresh later vd = true.
Proof.
  unfold refreshDue. destruct (nextRefresh vd); [|discriminate].
  intros H D. apply Z.leb_le in D. apply Z.leb_le. lia.
Qed.

Lemma find_true_iff {A : Type} (p : A -> bool) (l : list A) :
  (match find p l with Some _ => true | None => false end) = existsb p l.
Proof.
  induction l as [|a l IH]; [reflexivity|]. cbn. destruct (p a); auto.
Qed.

Lemma dropsNeedRefresh_iff (now : Z) (st : VendorDropsState) :
  dropsNeedRefresh nextRefresh vendorDrops now st = false <->
  exists drops, vendorDrops st = Some drops /\ drops <> [] /\
    forall vd, In vd drops -> refreshDue nextRefresh now vd = false.
Proof.
  unfold dropsNeedRefresh. destruct (vendorDrops st) as [[|d l]|].
  - split; [discriminate|]. intros (drops & [= <-] & N & _). congruence.
  - rewrite find_true_iff. split.
    + intros H. exists (d :: l). repeat split; [discriminate|].
      intros vd Hin. destruct (refreshDue nextRefresh now vd) eqn:E; auto.
      assert (existsb (refreshDue nextRefresh now) (d :: l) = true)
        by (apply existsb_exists; eauto).
      congruence.
    + intros (drops & [= <-] & _ & H).
      destruct (existsb (refreshDue nextRefresh now) (d :: l)) eqn:E; auto.
      apply existsb_exists in E as (vd & Hin & Hd).
      rewrite (H vd Hin) in Hd. discriminate.
  - split; [discriminate|]. intros (drops & [=] & _).
Qed.

(** X15.  A cache of vendor drops that needs a refresh at some time needs
    it at every later time: nothing but new data makes it fresh again. *)
Theorem dropsNeedRefresh_stays_due
  (now later : Z) (st : VendorDropsState) :
  (now <= later)%Z ->
  dropsNeedRefresh nextRefresh vendorDrops now st = true ->
  dropsNeedRefresh nextRefresh vendorDrops later st = true.
Proof.
  intros H D.
  destruct (dropsNeedRefresh nextRefresh vendorDrops later st) eqn:E;
    [reflexivity|].
  apply dropsNeedRefresh_iff in E as (drops & Hd & Hn & Hall).
  assert (F : dropsNeedRefresh nextRefresh vendorDrops now st = false).
  { apply dropsNeedRefresh_iff. exists drops. repeat split; auto.
    intros vd Hin. destruct (refreshDue nextRefresh now vd) eqn:Q; auto.
    specialize (Hall vd Hin).
    rewrite (refreshDue_later now later vd H Q) in Hall. discriminate. }
  congruence.
Qed.

(** X16.  [getAllVendorDrops] answers from the cache, with no request
    and no dispatch, exactly when the cache holds at least one drop and
    none of its drops is due; what it then returns is that cache, so a
    drop whose refresh time has passed is never served from it. *)
Theorem getAllVendorDrops_serves_fresh_cache_only
  (now : Z) (st : VendorDropsState) (net : vendorEngramsResponse VendorDropXyz) :
  (requests (getAllVendorDrops toVendorDrop nextRefresh vendorDrops now st net) = [] <->
   exists drops, vendorDrops st = Some drops /\ drops <> [] /\
     forall vd, In vd drops -> refreshDue nextRefresh now vd = false) /\
  (requests (getAllVendorDrops toVendorDrop nextRefresh vendorDrops now st net) = [] ->
   returned (getAllVendorDrops toVendorDrop nextRefresh vendorDrops now st net) = inr (vendorDrops st) /\
   dispatched (getAllVendorDrops toVendorDrop nextRefresh vendorDrops now st net) = []).
Proof.
  rewrite <- dropsNeedRefresh_iff. unfold getAllVendorDrops.
  destruct (dropsNeedRefresh nextRefresh vendorDrops now st); cbn.
  - split; [split; [|discriminate]|];
      destruct (handleVendorEngramsErrors net) as [e|[| |]]; discriminate.
  - split; [split|]; auto.
Qed.

(** X17.  When the cache cannot answer, [getAllVendorDrops] sends one
    POST and then either dispatches [loadVendorDrops] once with the very
    drops it returns, the converted body of a response of status 200, or
    throws and dispatches nothing: a rejected fetch and every status
    other than 200 give the same service-call error, and a body of
    status 200 that is not an array is an error too, not an empty
    list. *)
Theorem getAllVendorDrops_refreshes_or_throws
  (now : Z) (st : VendorDropsState) (net : vendorEngramsResponse VendorDropXyz) :
  dropsNeedRefresh nextRefresh vendorDrops now st = true ->
  requests (getAllVendorDrops toVendorDrop nextRefresh vendorDrops now st net)
  = [Post "https://api.vendorengrams.xyz/getVendorDrops?source=DIM"
       "application/json"] /\
  (forall drops, net = Responds 200 (BodyArray drops) ->
     returned (getAllVendorDrops toVendorDrop nextRefresh vendorDrops now st net) = inr (Some (List.map toVendorDrop drops)) /\
     dispatched (getAllVendorDrops toVendorDrop nextRefresh vendorDrops now st net) = [LoadVendorDrops (List.map toVendorDrop drops)]) /\
  ((forall drops, net <> Responds 200 (BodyArray drops)) ->
     dispatched (getAllVendorDrops toVendorDrop nextRefresh vendorDrops now st net) = [] /\
     exists e, returned (getAllVendorDrops toVendorDrop nextRefresh vendorDrops now st net) = inl e) /\
  (net = Rejects \/ (exists status body, net = Responds status body /\
                       status <> 200%Z) ->
     returned (getAllVendorDrops toVendorDrop nextRefresh vendorDrops now st net) = inl ServiceCallFailed) /\
  (net = Responds 200 BodyOther ->
     returned (getAllVendorDrops toVendorDrop nextRefresh vendorDrops now st net) = inl NotAnArray).
Proof.
  intros D. unfold getAllVendorDrops. rewrite D. cbn [negb].
  split; [|split; [|split; [|split]]].
  - destruct (handleVendorEngramsErrors net) as [e|[| |]]; reflexivity.
  - intros drops ->. cbn. auto.
  - intros N. destruct net as [|status [|drops|]]; cbn; eauto;
      destruct (status =? 200)%Z eqn:Q; cbn; eauto.
    apply Z.eqb_eq in Q. subst. now destruct (N drops).
  - intros [->|(status & body & -> & N)]; [reflexivity|]. cbn.
    destruct (status =? 200)%Z eqn:Q; [|reflexivity].
    apply Z.eqb_eq in Q. contradiction.
  - intros ->. reflexivity.
Qed.

End VendorEngramsFacts.

Lemma dropsNeedRefresh_stays_due_witness :
  dropsNeedRefresh (fun vd : option Z => vd) (fun st => st) 2000
    (Some [Some 5000%Z; Some 1500%Z; None]) = true.
Proof.
  apply (dropsNeedRefresh_stays_due (fun vd : option Z => vd)
           (fun st : option (list (option Z)) => st) 1500 2000
           (Some [Some 5000%Z; Some 1500%Z; None]));
    [lia|reflexivity].
Defined.

Lemma getAllVendorDrops_serves_fresh_cache_only_witness :
  returned
    (getAllVendorDrops (fun x : Z => Some x) (fun vd : option Z => vd)
       (fun st => st) 1000 (Some [Some 5000%Z; None]) Rejects)
  = inr (Some [Some 5000%Z; None]) /\
  dispatched
    (getAllVendorDrops (fun x : Z => Some x) (fun vd : option Z => vd)
       (fun st => st) 1000 (Some [Some 5000%Z; None]) Rejects)
  = [].
Proof.
  apply (getAllVendorDrops_serves_fresh_cache_only
           (fun x : Z => Some x) (fun vd : option Z => vd)
           (fun st : option (list (option Z)) => st) 1000
           (Some [Some 5000%Z; None]) Rejects).
  reflexivity.
Defined.

Lemma getAllVendorDrops_refreshes_or_throws_witness :
  returned
    (getAllVendorDrops (fun x : Z => Some x) (fun vd : option Z => vd)
       (fun st => st) 1000 (Some [Some 900%Z])
       (Responds 200 (BodyArray [7000%Z; 8000%Z])))
  = inr (Some [Some 7000%Z; Some 8000%Z]) /\
  dispatched
    (getAllVendorDrops (fun x : Z => Some x) (fun vd : option Z => vd)
       (fun st => st) 1000 (Some [Some 900%Z])
       (Responds 200 (BodyArray [7000%Z; 8000%Z])))
  = [LoadVendorDrops [Some 7000%Z; Some 8000%Z]].
Proof.
  exact (proj1 (proj2
           (getAllVendorDrops_refreshes_or_throws
              (fun x : Z => Some x) (fun vd : option Z => vd)
              (fun st : option (list (option Z)) => st) 1000
              (Some [Some 900%Z])
              (Responds 200 (BodyArray [7000%Z; 8000%Z])) eq_refl))
           [7000%Z; 8000%Z] eq_refl).
Defined.
